(** * websim-2api: an OpenAI-compatible shim in front of the websim inference API

    The repository holds three deployments of one Deno script:

    - [Main]     : [src/main.ts], chat and image models, authentication in the router;
    - [Part000]  : [src/unnamed/part_000], "v2 - with CORS and Streaming support";
    - [Part001]  : [src/unnamed/part_001], the first chat-only script.

    Each deployment is embedded as a function from a request to a computation
    in a small monad that threads the effects the script has: reading the
    clock ([Date.now]), drawing a UUID, reading the request body, calling the
    upstream with [fetch], logging, and throwing.  *)

From Stdlib Require Import String Ascii List ZArith Lia Bool.
From Stdlib Require Import DecimalString.
Import ListNotations.
Local Open Scope string_scope.
Local Open Scope Z_scope.

Set Implicit Arguments.
Set Warnings "-register-all".

(* ================================================================== *)
(** * JavaScript values *)
(* ================================================================== *)

(** The values the handlers manipulate: what [JSON.parse] produces, plus
    [undefined] and built-in functions (reached through the prototype chain).
    Numbers are modelled on their integer-valued fragment; a string is a
    sequence of code units below 256.  An object is its list of own
    properties, with pairwise distinct keys. *)
Inductive jsval : Type :=
| JUndefined
| JNull
| JBool (b : bool)
| JNum (z : Z)
| JStr (s : string)
| JArr (elems : list jsval)
| JObj (props : list (string * jsval))
| JFunction (name : string).

(** Thrown values.  Every exception the scripts can meet is an [Error]
    object; only its [message] is ever read. *)
Inductive Error : Type :=
| TypeError (message : string)
| SyntaxError (message : string)
| RangeError (message : string)
| PlainError (message : string).

Definition message (e : Error) : string :=
  match e with
  | TypeError m | SyntaxError m | RangeError m | PlainError m => m
  end.

Inductive Outcome (A : Type) : Type :=
| Ok (a : A)
| Throw (e : Error).
Arguments Ok {A} a.
Arguments Throw {A} e.

(** ** Strings *)

Fixpoint join (sep : string) (l : list string) : string :=
  match l with
  | [] => ""
  | [s] => s
  | s :: r => s ++ sep ++ join sep r
  end.

(** [Number::toString] on the integers below 10^21 in magnitude, which
    JavaScript prints as plain decimal digits (from 10^21 on it switches
    to exponent form, which is not modelled). *)
Definition string_of_Z (z : Z) : string :=
  NilZero.string_of_int (Z.to_int z).

(** [String.prototype.trim]: the white space and line terminator code units
    below 256 are TAB, LF, VT, FF, CR, SPACE and NBSP. *)
Definition is_white_space (c : ascii) : bool :=
  let n := nat_of_ascii c in
  ((9 <=? n) && (n <=? 13) || (n =? 32) || (n =? 160))%nat.

Fixpoint trimStart (s : string) : string :=
  match s with
  | String c r => if is_white_space c then trimStart r else s
  | EmptyString => EmptyString
  end.

Fixpoint trimEnd (s : string) : string :=
  match s with
  | String c r =>
      match trimEnd r with
      | EmptyString => if is_white_space c then EmptyString else String c EmptyString
      | r' => String c r'
      end
  | EmptyString => EmptyString
  end.

Definition trim (s : string) : string := trimEnd (trimStart s).

(** ** Truthiness, strict equality, property access *)

Definition truthy (v : jsval) : bool :=
  match v with
  | JUndefined | JNull => false
  | JBool b => b
  | JNum z => negb (z =? 0)
  | JStr s => negb (s =? "")%string
  | JArr _ | JObj _ | JFunction _ => true
  end.

(** The names [Object.prototype] defines; every one of them is a function.
    (Deno removes the [__proto__] accessor at start-up.) *)
Definition Object_prototype : list string :=
  [ "constructor"; "hasOwnProperty"; "isPrototypeOf"; "propertyIsEnumerable";
    "toLocaleString"; "toString"; "valueOf";
    "__defineGetter__"; "__defineSetter__"; "__lookupGetter__"; "__lookupSetter__" ].

Fixpoint own_property (A : Type) (props : list (string * A)) (k : string) : option A :=
  match props with
  | [] => None
  | (k', v) :: r => if (k' =? k)%string then Some v else own_property r k
  end.

Definition has_name (names : list string) (k : string) : bool :=
  existsb (fun n => (n =? k)%string) names.

Definition cannot_read (of_ : string) (k : string) : Error :=
  TypeError ("Cannot read properties of " ++ of_ ++ " (reading '" ++ k ++ "')").

(** [v.k] for an object [v] that came out of [JSON.parse] (own properties,
    then [Object.prototype]); reading a property of [null] or [undefined]
    throws.  Primitives, arrays and functions carry none of the names the
    handlers read beyond those of [Object.prototype]. *)
Definition get (v : jsval) (k : string) : Outcome jsval :=
  match v with
  | JUndefined => Throw (cannot_read "undefined" k)
  | JNull => Throw (cannot_read "null" k)
  | JObj props =>
      match own_property props k with
      | Some x => Ok x
      | None => Ok (if has_name Object_prototype k then JFunction k else JUndefined)
      end
  | _ => Ok (if has_name Object_prototype k then JFunction k else JUndefined)
  end.

(** [ToString], as used by template literals and by computed property keys.
    An object parsed from JSON converts to ["[object Object]"] unless it
    shadows [toString] with a (necessarily non-callable) own property, in
    which case [OrdinaryToPrimitive] finds no primitive and throws. *)
Fixpoint ToString (v : jsval) : Outcome string :=
  match v with
  | JUndefined => Ok "undefined"
  | JNull => Ok "null"
  | JBool true => Ok "true"
  | JBool false => Ok "false"
  | JNum z => Ok (string_of_Z z)
  | JStr s => Ok s
  | JArr elems =>
      let fix each (l : list jsval) : Outcome (list string) :=
        match l with
        | [] => Ok []
        | e :: r =>
            match (match e with
                   | JUndefined | JNull => Ok ""
                   | _ => ToString e
                   end) with
            | Throw x => Throw x
            | Ok s => match each r with
                      | Throw x => Throw x
                      | Ok ss => Ok (s :: ss)
                      end
            end
        end in
      match each elems with
      | Throw x => Throw x
      | Ok ss => Ok (join "," ss)
      end
  | JObj props =>
      match own_property props "toString" with
      | None => Ok "[object Object]"
      | Some _ => Throw (TypeError "Cannot convert object to primitive value")
      end
  | JFunction name => Ok ("function " ++ name ++ "() { [native code] }")
  end.

(** ** [JSON.stringify] *)

Definition dquote : string := String (ascii_of_nat 34) "".
Definition LF : string := String (ascii_of_nat 10) "".

Definition hex_digit (n : nat) : ascii :=
  ascii_of_nat (if (n <? 10)%nat then 48 + n else 87 + n)%nat.

Definition quote_char (c : ascii) : string :=
  let n := nat_of_ascii c in
  if (n =? 34)%nat then "\" ++ dquote
  else if (n =? 92)%nat then "\\"
  else if (n =? 8)%nat then "\b"
  else if (n =? 9)%nat then "\t"
  else if (n =? 10)%nat then "\n"
  else if (n =? 12)%nat then "\f"
  else if (n =? 13)%nat then "\r"
  else if (n <? 32)%nat then
    "\u00" ++ String (hex_digit (n / 16)) (String (hex_digit (n mod 16)) "")
  else String c "".

Fixpoint quote_body (s : string) : string :=
  match s with
  | EmptyString => ""
  | String c r => quote_char c ++ quote_body r
  end.

Definition quote (s : string) : string := dquote ++ quote_body s ++ dquote.

(** [SerializeJSONProperty]: [None] stands for [undefined], which makes the
    enclosing object drop the property and the enclosing array print
    [null]. *)
Fixpoint serialize (v : jsval) : option string :=
  match v with
  | JUndefined | JFunction _ => None
  | JNull => Some "null"
  | JBool true => Some "true"
  | JBool false => Some "false"
  | JNum z => Some (string_of_Z z)
  | JStr s => Some (quote s)
  | JArr elems =>
      Some ("[" ++ join "," (map (fun e => match serialize e with
                                           | Some s => s
                                           | None => "null"
                                           end) elems) ++ "]")
  | JObj props =>
      Some ("{" ++ join "," (flat_map (fun p => match serialize (snd p) with
                                                | Some s => [quote (fst p) ++ ":" ++ s]
                                                | None => []
                                                end) props) ++ "}")
  end.

(** [JSON.stringify(v)] where the script passes an object literal. *)
Definition JSON_stringify (v : jsval) : string :=
  match serialize v with
  | Some s => s
  | None => "undefined"
  end.

(** [v.trim()]: only a string has a callable [trim]. *)
Definition call_trim (expr : string) (v : jsval) : Outcome string :=
  match v with
  | JStr s => Ok (trim s)
  | JUndefined => Throw (cannot_read "undefined" "trim")
  | JNull => Throw (cannot_read "null" "trim")
  | _ => Throw (TypeError (expr ++ ".trim is not a function"))
  end.

(** [a || b] on an environment variable. *)
Definition or_default (a : option string) (b : string) : string :=
  match a with
  | Some s => if (s =? "")%string then b else s
  | None => b
  end.

(* ================================================================== *)
(** * The world of one request *)
(* ================================================================== *)

(** What [fetch] resolves to.  [text] and [json] are what the reply's
    [text()] and [json()] produce. *)
Record Reply : Type := {
  reply_status : Z;
  reply_statusText : string;
  reply_text : Outcome string;
  reply_json : Outcome jsval
}.

Definition reply_ok (r : Reply) : bool :=
  (200 <=? reply_status r) && (reply_status r <=? 299).

Record World : Type := {
  (** the n-th reading of the clock, in milliseconds *)
  clock : nat -> Z;
  (** the n-th value of [crypto.randomUUID()] *)
  randomUUID : nat -> string;
  (** the upstream: URL and request body to the result of [fetch] *)
  upstream : string -> string -> Outcome Reply
}.

Inductive Event : Type :=
| ReadBody
| Fetch (url body : string)
| Log.

Record State : Type := {
  clock_reads : nat;
  uuids_drawn : nat;
  trace : list Event
}.

Definition start : State :=
  {| clock_reads := 0; uuids_drawn := 0; trace := [] |}.

Definition M (A : Type) : Type := World -> State -> Outcome A * State.

Definition ret {A} (a : A) : M A := fun _ st => (Ok a, st).

Definition bind {A B} (m : M A) (k : A -> M B) : M B :=
  fun w st =>
    match m w st with
    | (Ok a, st') => k a w st'
    | (Throw e, st') => (Throw e, st')
    end.

Definition throw {A} (e : Error) : M A := fun _ st => (Throw e, st).

Definition try_catch {A} (m : M A) (handler : Error -> M A) : M A :=
  fun w st =>
    match m w st with
    | (Ok a, st') => (Ok a, st')
    | (Throw e, st') => handler e w st'
    end.

Definition lift {A} (o : Outcome A) : M A := fun _ st => (o, st).

Declare Scope js_scope.
Delimit Scope js_scope with js.
Notation "x <- m ;; k" := (bind m (fun x => k))
  (at level 61, m at next level, right associativity) : js_scope.
Notation "m ;; k" := (bind m (fun _ => k))
  (at level 61, right associativity) : js_scope.
Local Open Scope js_scope.

Definition emit (e : Event) : M unit :=
  fun _ st =>
    (Ok tt, {| clock_reads := clock_reads st;
               uuids_drawn := uuids_drawn st;
               trace := trace st ++ [e] |}).

(** [Date.now()], also the reading behind [new Date()]. *)
Definition Date_now : M Z :=
  fun w st =>
    (Ok (clock w (clock_reads st)),
     {| clock_reads := S (clock_reads st);
        uuids_drawn := uuids_drawn st;
        trace := trace st |}).

(** [Math.floor(Date.now() / 1000)] *)
Definition unix_seconds : M Z :=
  now <- Date_now ;; ret (now / 1000).

Definition crypto_randomUUID : M string :=
  fun w st =>
    (Ok (randomUUID w (uuids_drawn st)),
     {| clock_reads := clock_reads st;
        uuids_drawn := S (uuids_drawn st);
        trace := trace st |}).

Definition console_log : M unit := emit Log.
Definition console_error : M unit := emit Log.

Definition fetch (url body : string) : M Reply :=
  emit (Fetch url body) ;;
  fun w st => (upstream w url body, st).

(** ** Requests and responses *)

Record Request : Type := {
  method : string;
  (** [new URL(req.url).pathname] *)
  pathname : string;
  (** [req.headers.get("Authorization")] *)
  authorization : option string;
  (** what [req.json()] resolves to *)
  body : Outcome jsval
}.

Definition req_json (req : Request) : M jsval :=
  emit ReadBody ;; lift (body req).

Inductive Body : Type :=
| BodyNull
| BodyText (text : string)
| BodyStream (chunks : list string) (closed : bool).

Record Response : Type := {
  status : Z;
  headers : list (string * string);
  response_body : Body
}.

Definition null_body_status (s : Z) : bool :=
  (s =? 101) || (s =? 103) || (s =? 204) || (s =? 205) || (s =? 304).

Definition valid_status (s : Z) : bool :=
  (s =? 101) || ((200 <=? s) && (s <=? 599)).

(** [new Response(body, {status, headers})].  The constructor throws a
    [RangeError] for a status that is neither 101 nor within 200..599, and
    a [TypeError] for a body on a null-body status.  [headers] are those
    the script passes. *)
Definition new_Response (b : Body) (s : Z) (h : list (string * string)) : M Response :=
  if negb (valid_status s) then
    throw (RangeError "The status provided is not equal to 101 and outside the range [200, 599].")
  else if null_body_status s && match b with BodyNull => false | _ => true end then
    throw (TypeError "Response with null body status cannot have body")
  else ret {| status := s; headers := h; response_body := b |}.

Definition header (r : Response) (name : string) : option string :=
  own_property (headers r) name.

(** The preflight answer, the same object literal in the three scripts. *)
Definition preflight : M Response :=
  new_Response BodyNull 204
    [ ("Access-Control-Allow-Origin", "*");
      ("Access-Control-Allow-Methods", "GET, POST, OPTIONS");
      ("Access-Control-Allow-Headers", "Content-Type, Authorization") ].

(** [!authHeader || authHeader !== `Bearer ${key}`] *)
Definition rejected (authHeader : option string) (key : string) : bool :=
  match authHeader with
  | None => true
  | Some h => (h =? "")%string || negb (h =? "Bearer " ++ key)%string
  end.

(** [if (AUTHORIZATION_KEY)]: the key is set and not the empty string. *)
Definition configured (key : option string) : option string :=
  match key with
  | Some k => if (k =? "")%string then None else Some k
  | None => None
  end.

(** The environment of the process: [Deno.env.get]. *)
Definition Env : Type := string -> option string.

(** ** Pieces the three scripts share verbatim *)

(** [v === s] for a string literal [s]. *)
Definition is_string (v : jsval) (s : string) : bool :=
  match v with
  | JStr s' => (s' =? s)%string
  | _ => false
  end.

(** [v === true] *)
Definition is_true (v : jsval) : bool :=
  match v with
  | JBool true => true
  | _ => false
  end.

(** [table[k]] with a computed key. *)
Definition index (table k : jsval) : Outcome jsval :=
  match ToString k with
  | Ok key => get table key
  | Throw e => Throw e
  end.

Definition Object_keys (v : jsval) : list string :=
  match v with
  | JObj props => map fst props
  | _ => []
  end.

Fixpoint mapM {A B} (f : A -> M B) (l : list A) : M (list B) :=
  match l with
  | [] => ret []
  | a :: r => b <- f a ;; bs <- mapM f r ;; ret (b :: bs)
  end.

(** The entry of the models list built for [modelId]. *)
Definition model_entry (modelId : string) (created : Z) : jsval :=
  JObj [ ("id", JStr modelId);
         ("object", JStr "model");
         ("created", JNum created);
         ("owned_by", JStr "user") ].

Definition models_list (models : list jsval) : jsval :=
  JObj [ ("object", JStr "list"); ("data", JArr models) ].

(** The [chat.completion] object literal. *)
Definition chat_completion (uuid : string) (created : Z) (model : jsval)
    (content : string) : jsval :=
  JObj [ ("id", JStr ("chatcmpl-" ++ uuid));
         ("object", JStr "chat.completion");
         ("created", JNum created);
         ("model", model);
         ("choices",
          JArr [ JObj [ ("index", JNum 0);
                        ("message", JObj [ ("role", JStr "assistant");
                                           ("content", JStr content) ]);
                        ("finish_reason", JStr "stop") ] ]);
         ("usage", JObj [ ("prompt_tokens", JNull);
                          ("completion_tokens", JNull);
                          ("total_tokens", JNull) ]) ].

Definition WEBSIM_CHAT_API_URL : string :=
  "https://websim.com/api/v1/inference/run_chat_completion".
Definition WEBSIM_IMAGE_API_URL : string :=
  "https://websim.com/api/v1/inference/run_image_generation".

(* ================================================================== *)
(** * [src/unnamed/part_001]: the first script *)
(* ================================================================== *)

Module Part001.
Section Script.
Variable env : Env.

Definition WEBSIM_API_URL : string := WEBSIM_CHAT_API_URL.
Definition WEBSIM_PROJECT_ID : string :=
  or_default (env "WEBSIM_PROJECT_ID") "8n26qj27l_9v7_8fxk9i".
Definition AUTHORIZATION_KEY : option string := env "API_KEY".

Definition MODEL_MAPPING : jsval :=
  JObj [ ("websim-chat", JStr WEBSIM_PROJECT_ID) ].

Definition handleModels : M Response :=
  models <- mapM (fun modelId =>
                    created <- unix_seconds ;;
                    ret (model_entry modelId created))
                 (Object_keys MODEL_MAPPING) ;;
  new_Response (BodyText (JSON_stringify (models_list models))) 200
    [ ("Content-Type", "application/json") ].

Definition unauthorized (req : Request) : bool :=
  match configured AUTHORIZATION_KEY with
  | Some key => rejected (authorization req) key
  | None => false
  end.

Definition handleChatCompletions (req : Request) : M Response :=
  if unauthorized req then new_Response (BodyText "Unauthorized") 401 []
  else
    parsed <- try_catch (v <- req_json req ;; ret (Some v))
                        (fun _ => ret None) ;;
    match parsed with
    | None => new_Response (BodyText "Invalid JSON body") 400 []
    | Some openaiRequest =>
        modelId <- lift (get openaiRequest "model") ;;
        projectId <- lift (index MODEL_MAPPING modelId) ;;
        if negb (truthy projectId) then
          shown <- lift (ToString modelId) ;;
          new_Response
            (BodyText (JSON_stringify
                         (JObj [ ("error", JStr ("Model not found: " ++ shown)) ])))
            404 []
        else
          messages <- lift (get openaiRequest "messages") ;;
          let websimPayload :=
            JObj [ ("project_id", projectId); ("messages", messages) ] in
          try_catch
            (apiResponse <- fetch WEBSIM_API_URL (JSON_stringify websimPayload) ;;
             if negb (reply_ok apiResponse) then
               _ <- lift (reply_text apiResponse) ;;
               console_error ;;
               new_Response
                 (BodyText ("Upstream API error: " ++ reply_statusText apiResponse))
                 (reply_status apiResponse) []
             else
               websimResponse <- lift (reply_json apiResponse) ;;
               uuid <- crypto_randomUUID ;;
               created <- unix_seconds ;;
               raw <- lift (get websimResponse "content") ;;
               content <- lift (call_trim "websimResponse.content" raw) ;;
               new_Response
                 (BodyText (JSON_stringify
                              (chat_completion uuid created modelId content)))
                 200
                 [ ("Content-Type", "application/json");
                   ("Access-Control-Allow-Origin", "*") ])
            (fun _ =>
               console_error ;;
               new_Response (BodyText "Internal Server Error") 500 [])
    end.

Definition handler (req : Request) : M Response :=
  if (method req =? "OPTIONS")%string then preflight
  else if (pathname req =? "/v1/models")%string then handleModels
  else if (pathname req =? "/v1/chat/completions")%string then
    handleChatCompletions req
  else new_Response (BodyText "Not Found") 404 [].

End Script.
End Part001.

(* ================================================================== *)
(** * [src/unnamed/part_000]: v2, with CORS and streaming *)
(* ================================================================== *)

Module Part000.
Section Script.
Variable env : Env.

Definition WEBSIM_API_URL : string := WEBSIM_CHAT_API_URL.
Definition WEBSIM_PROJECT_ID : string :=
  or_default (env "WEBSIM_PROJECT_ID") "8n26qj27l_9v7_8fxk9i".
Definition AUTHORIZATION_KEY : option string := env "API_KEY".

Definition MODEL_MAPPING : jsval :=
  JObj [ ("websim-chat", JStr WEBSIM_PROJECT_ID) ].

Definition corsHeaders : list (string * string) :=
  [ ("Access-Control-Allow-Origin", "*") ].

Definition handleModels (headers : list (string * string)) : M Response :=
  models <- mapM (fun modelId =>
                    created <- unix_seconds ;;
                    ret (model_entry modelId created))
                 (Object_keys MODEL_MAPPING) ;;
  new_Response (BodyText (JSON_stringify (models_list models))) 200
    (headers ++ [ ("Content-Type", "application/json") ]).

Definition unauthorized (req : Request) : bool :=
  match configured AUTHORIZATION_KEY with
  | Some key => rejected (authorization req) key
  | None => false
  end.

(** The two [chat.completion.chunk] literals of the emulated stream. *)
Definition streamChunk (chunkId : string) (created : Z) (modelId : jsval)
    (content : string) : jsval :=
  JObj [ ("id", JStr chunkId);
         ("object", JStr "chat.completion.chunk");
         ("created", JNum created);
         ("model", modelId);
         ("choices",
          JArr [ JObj [ ("index", JNum 0);
                        ("delta", JObj [ ("content", JStr content) ]);
                        ("finish_reason", JNull) ] ]) ].

Definition finalChunk (chunkId : string) (created : Z) (modelId : jsval) : jsval :=
  JObj [ ("id", JStr chunkId);
         ("object", JStr "chat.completion.chunk");
         ("created", JNum created);
         ("model", modelId);
         ("choices",
          JArr [ JObj [ ("index", JNum 0);
                        ("delta", JObj []);
                        ("finish_reason", JStr "stop") ] ]) ].

(** [`data: ${payload}\n\n`] *)
Definition sse_frame (payload : string) : string :=
  "data: " ++ payload ++ LF ++ LF.

(** [new ReadableStream({ start(controller) { ... } })]: [start] runs
    inside the constructor, enqueues three chunks and closes. *)
Definition emulated_stream (modelId : jsval) (content : string) : M Body :=
  uuid <- crypto_randomUUID ;;
  let chunkId := "chatcmpl-" ++ uuid in
  created1 <- unix_seconds ;;
  created2 <- unix_seconds ;;
  ret (BodyStream
         [ sse_frame (JSON_stringify (streamChunk chunkId created1 modelId content));
           sse_frame (JSON_stringify (finalChunk chunkId created2 modelId));
           sse_frame "[DONE]" ]
         true).

(** [websimResponse.content?.trim() ?? ""] *)
Definition trimmed_content (raw : jsval) : Outcome string :=
  match raw with
  | JUndefined | JNull => Ok ""
  | _ => call_trim "websimResponse.content" raw
  end.

Definition handleChatCompletions (req : Request)
    (corsHeaders : list (string * string)) : M Response :=
  _ <- Date_now ;;
  console_log ;;
  if unauthorized req then new_Response (BodyText "Unauthorized") 401 corsHeaders
  else
    parsed <- try_catch (v <- req_json req ;; console_log ;; ret (Some v))
                        (fun _ => ret None) ;;
    match parsed with
    | None => new_Response (BodyText "Invalid JSON body") 400 corsHeaders
    | Some openaiRequest =>
        modelId <- lift (get openaiRequest "model") ;;
        projectId <- lift (index MODEL_MAPPING modelId) ;;
        if negb (truthy projectId) then
          shown <- lift (ToString modelId) ;;
          new_Response
            (BodyText (JSON_stringify
                         (JObj [ ("error", JStr ("Model not found: " ++ shown)) ])))
            404 (corsHeaders ++ [ ("Content-Type", "application/json") ])
        else
          messages <- lift (get openaiRequest "messages") ;;
          let websimPayload :=
            JObj [ ("project_id", projectId); ("messages", messages) ] in
          apiResponse <- fetch WEBSIM_API_URL (JSON_stringify websimPayload) ;;
          if negb (reply_ok apiResponse) then
            _ <- lift (reply_text apiResponse) ;;
            console_error ;;
            new_Response
              (BodyText ("Upstream API error: " ++ reply_statusText apiResponse))
              (reply_status apiResponse) corsHeaders
          else
            websimResponse <- lift (reply_json apiResponse) ;;
            raw <- lift (get websimResponse "content") ;;
            content <- lift (trimmed_content raw) ;;
            stream <- lift (get openaiRequest "stream") ;;
            let isStreaming := is_true stream in
            if isStreaming then
              console_log ;;
              stream <- emulated_stream modelId content ;;
              new_Response stream 200
                (corsHeaders ++ [ ("Content-Type", "text/event-stream");
                                  ("Cache-Control", "no-cache");
                                  ("Connection", "keep-alive") ])
            else
              console_log ;;
              uuid <- crypto_randomUUID ;;
              created <- unix_seconds ;;
              new_Response
                (BodyText (JSON_stringify
                             (chat_completion uuid created modelId content)))
                200 (corsHeaders ++ [ ("Content-Type", "application/json") ])
    end.

Definition handler (req : Request) : M Response :=
  if (method req =? "OPTIONS")%string then preflight
  else
    try_catch
      (if (pathname req =? "/v1/models")%string then handleModels corsHeaders
       else if (pathname req =? "/v1/chat/completions")%string then
         handleChatCompletions req corsHeaders
       else new_Response (BodyText "Not Found") 404 corsHeaders)
      (fun _ =>
         console_error ;;
         new_Response
           (BodyText (JSON_stringify (JObj [ ("error", JStr "Internal Server Error") ])))
           500 (corsHeaders ++ [ ("Content-Type", "application/json") ])).

End Script.
End Part000.

(* ================================================================== *)
(** * [src/main.ts]: chat and image models *)
(* ================================================================== *)

Module Main.
Section Script.
Variable env : Env.

Definition WEBSIM_CHAT_PROJECT_ID : string :=
  or_default (env "WEBSIM_CHAT_PROJECT_ID") "8n26qj27l_9v7_8fxk9i".
Definition WEBSIM_IMAGE_PROJECT_ID : string :=
  or_default (env "WEBSIM_IMAGE_PROJECT_ID") "7s1bwhja5y2paq235t93".
Definition AUTHORIZATION_KEY : option string := env "API_KEY".

Definition MODEL_MAPPING : jsval :=
  JObj [ ("websim-chat",
          JObj [ ("type", JStr "chat");
                 ("projectId", JStr WEBSIM_CHAT_PROJECT_ID);
                 ("apiUrl", JStr WEBSIM_CHAT_API_URL) ]);
         ("websim-image",
          JObj [ ("type", JStr "image");
                 ("projectId", JStr WEBSIM_IMAGE_PROJECT_ID);
                 ("apiUrl", JStr WEBSIM_IMAGE_API_URL) ]) ].

Definition handleModels : M Response :=
  models <- mapM (fun modelId =>
                    created <- unix_seconds ;;
                    ret (model_entry modelId created))
                 (Object_keys MODEL_MAPPING) ;;
  new_Response (BodyText (JSON_stringify (models_list models))) 200
    [ ("Content-Type", "application/json") ].

(** [catch (error)] of both translators. *)
Definition internal_error (error : Error) : M Response :=
  console_error ;;
  new_Response
    (BodyText (JSON_stringify
                 (JObj [ ("error",
                          JStr (if (message error =? "")%string
                                then "Internal Server Error"
                                else message error)) ])))
    500 [].

(** [!modelConfig || modelConfig.type !== kind] *)
Definition wrong_modality (modelConfig : jsval) (kind : string) : Outcome bool :=
  if negb (truthy modelConfig) then Ok true
  else match get modelConfig "type" with
       | Ok t => Ok (negb (is_string t kind))
       | Throw e => Throw e
       end.

Definition upstream_error (apiResponse : Reply) : Error :=
  PlainError ("Upstream API error: " ++ string_of_Z (reply_status apiResponse)).

Definition handleChatCompletions (req : Request) : M Response :=
  try_catch
    (openaiRequest <- req_json req ;;
     modelId <- lift (get openaiRequest "model") ;;
     modelConfig <- lift (index MODEL_MAPPING modelId) ;;
     wrong <- lift (wrong_modality modelConfig "chat") ;;
     if (wrong : bool) then
       model <- lift (get openaiRequest "model") ;;
       shown <- lift (ToString model) ;;
       new_Response
         (BodyText (JSON_stringify
                      (JObj [ ("error", JStr ("Chat model not found: " ++ shown)) ])))
         404 []
     else
       projectId <- lift (get modelConfig "projectId") ;;
       messages <- lift (get openaiRequest "messages") ;;
       let websimPayload :=
         JObj [ ("project_id", projectId); ("messages", messages) ] in
       apiUrl <- lift (get modelConfig "apiUrl") ;;
       url <- lift (ToString apiUrl) ;;
       apiResponse <- fetch url (JSON_stringify websimPayload) ;;
       if negb (reply_ok apiResponse) then throw (upstream_error apiResponse)
       else
         websimResponse <- lift (reply_json apiResponse) ;;
         uuid <- crypto_randomUUID ;;
         created <- unix_seconds ;;
         model <- lift (get openaiRequest "model") ;;
         raw <- lift (get websimResponse "content") ;;
         content <- lift (call_trim "websimResponse.content" raw) ;;
         new_Response
           (BodyText (JSON_stringify (chat_completion uuid created model content)))
           200
           [ ("Content-Type", "application/json");
             ("Access-Control-Allow-Origin", "*") ])
    internal_error.

(** The [switch (openaiRequest.size)] of the image translator. *)
Definition aspectRatio (size : jsval) : string :=
  if is_string size "1792x1024" then "16:9"
  else if is_string size "1024x1792" then "9:16"
  else "1:1".

Definition handleImageGeneration (req : Request) : M Response :=
  try_catch
    (openaiRequest <- req_json req ;;
     modelId <- lift (get openaiRequest "model") ;;
     modelConfig <- lift (index MODEL_MAPPING modelId) ;;
     wrong <- lift (wrong_modality modelConfig "image") ;;
     if (wrong : bool) then
       model <- lift (get openaiRequest "model") ;;
       shown <- lift (ToString model) ;;
       new_Response
         (BodyText (JSON_stringify
                      (JObj [ ("error", JStr ("Image model not found: " ++ shown)) ])))
         404 []
     else
       size <- lift (get openaiRequest "size") ;;
       projectId <- lift (get modelConfig "projectId") ;;
       prompt <- lift (get openaiRequest "prompt") ;;
       let websimPayload :=
         JObj [ ("project_id", projectId);
                ("prompt", prompt);
                ("aspect_ratio", JStr (aspectRatio size)) ] in
       apiUrl <- lift (get modelConfig "apiUrl") ;;
       url <- lift (ToString apiUrl) ;;
       apiResponse <- fetch url (JSON_stringify websimPayload) ;;
       if negb (reply_ok apiResponse) then throw (upstream_error apiResponse)
       else
         websimResponse <- lift (reply_json apiResponse) ;;
         created <- unix_seconds ;;
         imageUrl <- lift (get websimResponse "url") ;;
         new_Response
           (BodyText (JSON_stringify
                        (JObj [ ("created", JNum created);
                                ("data", JArr [ JObj [ ("url", imageUrl) ] ]) ])))
           200
           [ ("Content-Type", "application/json");
             ("Access-Control-Allow-Origin", "*") ])
    internal_error.

Definition unauthorized (req : Request) : bool :=
  match configured AUTHORIZATION_KEY with
  | Some key => rejected (authorization req) key
  | None => false
  end.

Definition handler (req : Request) : M Response :=
  if (method req =? "OPTIONS")%string then preflight
  else if unauthorized req then
    new_Response (BodyText (JSON_stringify (JObj [ ("error", JStr "Unauthorized") ])))
      401 [ ("Content-Type", "application/json") ]
  else if (pathname req =? "/v1/models")%string then handleModels
  else if (pathname req =? "/v1/chat/completions")%string then
    handleChatCompletions req
  else if (pathname req =? "/v1/images/generations")%string then
    handleImageGeneration req
  else new_Response (BodyText "Not Found") 404 [].

End Script.
End Main.

(* ================================================================== *)
(** * Observations on a run *)
(* ================================================================== *)

Definition is_fetch (e : Event) : bool :=
  match e with
  | Fetch _ _ => true
  | _ => false
  end.

(** The upstream calls made during a run, in order. *)
Definition upstream_calls (st : State) : list Event :=
  filter is_fetch (trace st).

Definition is_read_body (e : Event) : bool :=
  match e with
  | ReadBody => true
  | _ => false
  end.

(** How often the request body was read during a run. *)
Definition body_reads (st : State) : nat :=
  length (filter is_read_body (trace st)).

Definition CORS_preflight : Response :=
  {| status := 204;
     headers := [ ("Access-Control-Allow-Origin", "*");
                  ("Access-Control-Allow-Methods", "GET, POST, OPTIONS");
                  ("Access-Control-Allow-Headers", "Content-Type, Authorization") ];
     response_body := BodyNull |}.

(** The inbound header carries the configured token. *)
Definition presents (req : Request) (key : string) : Prop :=
  authorization req = Some ("Bearer " ++ key).

(** ** What "trimmed" means *)

Fixpoint blank (s : string) : bool :=
  match s with
  | EmptyString => true
  | String c r => is_white_space c && blank r
  end.

Definition starts_blank (s : string) : bool :=
  match s with
  | String c _ => is_white_space c
  | EmptyString => false
  end.

Fixpoint ends_blank (s : string) : bool :=
  match s with
  | EmptyString => false
  | String c EmptyString => is_white_space c
  | String _ r => ends_blank r
  end.

(** [t] is [s] with its leading and trailing white space removed: [s] is
    [t] between two runs of white space, and [t] neither starts nor ends
    with white space. *)
Definition stripped (s t : string) : Prop :=
  exists l r, s = l ++ t ++ r /\ blank l = true /\ blank r = true /\
              starts_blank t = false /\ ends_blank t = false.

(** ** The answers to a chat exchange that went well *)

Definition json_headers : list (string * string) :=
  [ ("Content-Type", "application/json"); ("Access-Control-Allow-Origin", "*") ].

(** The non-streaming answer of [main.ts] and [part_001]. *)
Definition completion_response (w : World) (model : jsval) (content : string) : Response :=
  {| status := 200;
     headers := json_headers;
     response_body :=
       BodyText (JSON_stringify
                   (chat_completion (randomUUID w 0) (clock w 0 / 1000) model content)) |}.

(** The non-streaming answer of [part_000], whose first clock reading goes
    into the log line. *)
Definition completion_response_v2 (w : World) (model : jsval) (content : string)
    : Response :=
  {| status := 200;
     headers := [ ("Access-Control-Allow-Origin", "*");
                  ("Content-Type", "application/json") ];
     response_body :=
       BodyText (JSON_stringify
                   (chat_completion (randomUUID w 0) (clock w 1 / 1000) model content)) |}.

(** The streaming answer of [part_000]: three frames, then closed. *)
Definition stream_response (w : World) (model : jsval) (content : string) : Response :=
  let chunkId := "chatcmpl-" ++ randomUUID w 0 in
  {| status := 200;
     headers := [ ("Access-Control-Allow-Origin", "*");
                  ("Content-Type", "text/event-stream");
                  ("Cache-Control", "no-cache");
                  ("Connection", "keep-alive") ];
     response_body :=
       BodyStream
         [ "data: "
             ++ JSON_stringify
                  (Part000.streamChunk chunkId (clock w 1 / 1000) model content)
             ++ LF ++ LF;
           "data: "
             ++ JSON_stringify (Part000.finalChunk chunkId (clock w 2 / 1000) model)
             ++ LF ++ LF;
           "data: [DONE]" ++ LF ++ LF ]
         true |}.

(** Reading a parsed JSON document along a path such as
    [choices[0].message.content]. *)
Inductive selector : Type :=
| Key (k : string)
| Index (n : nat).

Definition select1 (v : jsval) (sel : selector) : jsval :=
  match sel, v with
  | Key k, JObj props =>
      match own_property props k with
      | Some x => x
      | None => JUndefined
      end
  | Index n, JArr elems => nth n elems JUndefined
  | _, _ => JUndefined
  end.

Definition select (v : jsval) (path : list selector) : jsval :=
  fold_left select1 path v.

(** A response that carries the CORS header, and is not a thrown error. *)
Definition readable_by_browsers (out : Outcome Response) : Prop :=
  match out with
  | Ok resp => header resp "Access-Control-Allow-Origin" = Some "*"
  | Throw _ => False
  end.

(** The models list as the endpoint is described: an object
    [{object: "list", data: [...]}] whose entries are
    [{id, object: "model", created, owned_by: "user"}]. *)
Definition listed_model (id : string) (created : Z) : jsval :=
  JObj [ ("id", JStr id);
         ("object", JStr "model");
         ("created", JNum created);
         ("owned_by", JStr "user") ].

Definition listing (entries : list jsval) : jsval :=
  JObj [ ("object", JStr "list"); ("data", JArr entries) ].

(** The ids a listing holds, in order. *)
Definition listed_ids (v : jsval) : list jsval :=
  match select v [Key "data"] with
  | JArr entries => map (fun e => select e [Key "id"]) entries
  | _ => []
  end.

(** The payload of a model-not-found answer. *)
Definition not_found (prefix model : string) : jsval :=
  JObj [ ("error", JStr (prefix ++ model)) ].

(** The fixed table from [size] to [aspect_ratio], with its default. *)
Definition size_table : list (string * string) :=
  [ ("1024x1024", "1:1"); ("1792x1024", "16:9"); ("1024x1792", "9:16") ].

Definition aspect_ratio_of (size : jsval) : string :=
  match size with
  | JStr s =>
      match own_property size_table s with
      | Some ratio => ratio
      | None => "1:1"
      end
  | _ => "1:1"
  end.

(** The payload an image request is forwarded as. *)
Definition image_payload (project_id : string) (prompt size : jsval) : jsval :=
  JObj [ ("project_id", JStr project_id);
         ("prompt", prompt);
         ("aspect_ratio", JStr (aspect_ratio_of size)) ].

(** ** Failing without crashing *)

(** A run that called the upstream ended in a response, not in a thrown
    error, and the response carries either the status of the upstream
    reply [r] or 500, and in no case 200. *)
Definition fails_gracefully (r : Reply) (run : Outcome Response * State) : Prop :=
  upstream_calls (snd run) <> [] ->
  exists resp, fst run = Ok resp /\ status resp <> 200 /\
               (status resp = reply_status r \/ status resp = 500).

(** The request passes the token check: whenever a token is configured,
    the request presents it. *)
Definition granted (env : Env) (req : Request) : Prop :=
  forall key, configured (env "API_KEY") = Some key -> presents req key.

(* ================================================================== *)
(** * Sample requests and stubbed upstreams *)
(* ================================================================== *)

Definition no_env : Env := fun _ => None.

Definition env_with_key : Env :=
  fun name => if (name =? "API_KEY")%string then Some "secret" else None.

Definition json_reply (s : Z) (statusText : string) (v : jsval) : Reply :=
  {| reply_status := s;
     reply_statusText := statusText;
     reply_text := Ok (JSON_stringify v);
     reply_json := Ok v |}.

(** A world whose upstream answers every call with [r]; the clock starts
    at [t0] milliseconds and advances by [dt] between two readings. *)
Definition stubbed (t0 dt : Z) (r : Reply) : World :=
  {| clock := fun n => t0 + dt * Z.of_nat n;
     randomUUID := fun _ => "3b241101-e2bb-4255-8caf-4136c566a962";
     upstream := fun _ _ => Ok r |}.

Definition hello : Reply :=
  json_reply 200 "OK" (JObj [ ("content", JStr "  Hello  ") ]).

Definition post (path : string) (auth : option string) (v : jsval) : Request :=
  {| method := "POST"; pathname := path; authorization := auth; body := Ok v |}.

Definition chat_request (model : string) (more : list (string * jsval)) : jsval :=
  JObj ([ ("model", JStr model);
          ("messages",
           JArr [ JObj [ ("role", JStr "user"); ("content", JStr "hi") ] ]) ]
        ++ more).

Definition no_body : Outcome jsval :=
  Throw (SyntaxError "Unexpected end of JSON input").

Definition preflight_request : Request :=
  {| method := "OPTIONS"; pathname := "/v1/chat/completions";
     authorization := None; body := no_body |}.

Definition wrong_token_request : Request :=
  post "/v1/chat/completions" (Some "Bearer wrong") (chat_request "websim-chat" []).

Definition garbled_request : Request :=
  {| method := "POST"; pathname := "/v1/chat/completions";
     authorization := None; body := Throw (SyntaxError "Unexpected token") |}.

Definition models_request : Request :=
  {| method := "GET"; pathname := "/v1/models";
     authorization := None; body := no_body |}.

Definition streaming_request : Request :=
  post "/v1/chat/completions" None (chat_request "websim-chat" [ ("stream", JBool true) ]).

Definition plain_request : Request :=
  post "/v1/chat/completions" None (chat_request "websim-chat" [ ("stream", JBool false) ]).

Definition unknown_model_request : Request :=
  post "/v1/chat/completions" None
    (JObj [ ("model", JStr "unknown-model"); ("messages", JArr []) ]).

Definition constructor_request : Request :=
  post "/v1/chat/completions" None
    (JObj [ ("model", JStr "constructor"); ("messages", JArr []) ]).

Definition image_request (size : string) : Request :=
  post "/v1/images/generations" None
    (JObj [ ("model", JStr "websim-image");
            ("prompt", JStr "a lighthouse at dusk");
            ("size", JStr size) ]).

(** A body that parses, to [null]. *)
Definition null_request : Request :=
  post "/v1/chat/completions" None JNull.

(** Upstream replies: a success without [content], and failures. *)
Definition empty_reply : Reply := json_reply 200 "OK" (JObj []).

Definition unavailable : Reply :=
  {| reply_status := 503; reply_statusText := "Service Unavailable";
     reply_text := Ok "upstream unavailable";
     reply_json := Throw (SyntaxError "Unexpected token") |}.

Definition picture : Reply :=
  json_reply 200 "OK" (JObj [ ("url", JStr "https://images.websim.com/1.png") ]).

(* ================================================================== *)
(** * Further observations on requests, runs and answers *)
(* ================================================================== *)

(** The same request under another Authorization header. *)
Definition with_authorization (req : Request) (a : option string) : Request :=
  {| method := method req; pathname := pathname req;
     authorization := a; body := body req |}.

(** The same environment with [API_KEY] unset. *)
Definition without_key (env : Env) : Env :=
  fun name => if (name =? "API_KEY")%string then None else env name.

Definition plain_404 (h : list (string * string)) : Response :=
  {| status := 404; headers := h; response_body := BodyText "Not Found" |}.

Definition error_payload (msg : string) : jsval := JObj [ ("error", JStr msg) ].

(** [error.message || "Internal Server Error"] *)
Definition message_or_default (e : Error) : string :=
  if (message e =? "")%string then "Internal Server Error" else message e.

(** The 500 answers of the three scripts. *)
Definition internal_error_main (msg : string) : Response :=
  {| status := 500; headers := [];
     response_body := BodyText (JSON_stringify (error_payload msg)) |}.

Definition internal_error_v2 : Response :=
  {| status := 500;
     headers := [ ("Access-Control-Allow-Origin", "*");
                  ("Content-Type", "application/json") ];
     response_body := BodyText (JSON_stringify (error_payload "Internal Server Error")) |}.

Definition internal_error_v1 : Response :=
  {| status := 500; headers := []; response_body := BodyText "Internal Server Error" |}.

(** The answer of [part_000] and [part_001] that passes an upstream
    failure on. *)
Definition upstream_error_text (r : Reply) (h : list (string * string)) : Response :=
  {| status := reply_status r; headers := h;
     response_body := BodyText ("Upstream API error: " ++ reply_statusText r) |}.

(** The payload a chat request is forwarded as. *)
Definition chat_payload (project_id : string) (messages : jsval) : jsval :=
  JObj [ ("project_id", JStr project_id); ("messages", messages) ].

(** A run that called the upstream ended in a response with property [P]. *)
Definition after_upstream_call (P : Response -> Prop)
    (run : Outcome Response * State) : Prop :=
  upstream_calls (snd run) <> [] -> exists resp, fst run = Ok resp /\ P resp.

(** A run that ended in a thrown error did so before any upstream call,
    while reading [model] off the parsed body or converting it to a
    property key. *)
Definition escapes_only_at_model (req : Request)
    (run : Outcome Response * State) : Prop :=
  match fst run with
  | Ok _ => True
  | Throw e =>
      upstream_calls (snd run) = [] /\
      exists v, body req = Ok v /\
                (get v "model" = Throw e \/
                 exists m, get v "model" = Ok m /\ ToString m = Throw e)
  end.

(** A run reads the body at most once and calls the upstream at most
    once; wherever a call stands in the trace, the body has been read
    before it, and the call goes to one of the two websim URLs. *)
Definition disciplined (st : State) : Prop :=
  (body_reads st <= 1)%nat /\
  (length (upstream_calls st) <= 1)%nat /\
  forall before url b after,
    trace st = (before ++ Fetch url b :: after)%list ->
    In ReadBody before /\
    (url = WEBSIM_CHAT_API_URL \/ url = WEBSIM_IMAGE_API_URL).

Definition known_url (url : string) : bool :=
  (url =? WEBSIM_CHAT_API_URL)%string || (url =? WEBSIM_IMAGE_API_URL)%string.

(** A checker for [disciplined], reading a trace from left to right:
    [read] and [called] tell whether the body has been read and the
    upstream called so far. *)
Fixpoint in_order (read called : bool) (t : list Event) : bool :=
  match t with
  | [] => true
  | ReadBody :: r => negb read && in_order true called r
  | Fetch url _ :: r =>
      read && negb called && known_url url && in_order read true r
  | Log :: r => in_order read called r
  end.

(** An answer that carries the CORS header is a preflight or a 200. *)
Definition cors_only_on_success (out : Outcome Response) : Prop :=
  match out with
  | Ok resp =>
      header resp "Access-Control-Allow-Origin" <> None ->
      status resp = 204 \/ status resp = 200
  | Throw _ => True
  end.

(** Strings without a line feed or a carriage return. *)
Definition is_line_break (c : ascii) : bool :=
  let n := nat_of_ascii c in ((n =? 10) || (n =? 13))%nat.

Fixpoint single_line (s : string) : bool :=
  match s with
  | EmptyString => true
  | String c r => negb (is_line_break c) && single_line r
  end.


(** A GET has no body: [req.json()] rejects. *)
Definition bodyless_get : Request :=
  {| method := "GET"; pathname := "/v1/chat/completions"; authorization := None;
     body := no_body |}.

Definition right_token_request : Request :=
  post "/v1/chat/completions" (Some "Bearer secret") (chat_request "websim-chat" []).

Definition no_model_request : Request :=
  post "/v1/chat/completions" None (JObj [ ("messages", JArr []) ]).

Definition image_model_on_chat_request : Request :=
  post "/v1/chat/completions" None (chat_request "websim-image" []).

Definition quoted_true_request : Request :=
  post "/v1/chat/completions" None
    (chat_request "websim-chat" [ ("stream", JStr "true") ]).

Definition toString_request : Request :=
  post "/v1/chat/completions" None
    (JObj [ ("model", JStr "toString"); ("messages", JArr []) ]).

Definition numeric_content : Reply :=
  json_reply 200 "OK" (JObj [ ("content", JNum 42) ]).

Definition connection_refused : Error :=
  TypeError "error sending request".

Definition offline : World :=
  {| clock := fun n => Z.of_nat n;
     randomUUID := fun _ => "3b241101-e2bb-4255-8caf-4136c566a962";
     upstream := fun _ _ => Throw connection_refused |}.

(* ================================================================== *)
(** * Basic facts *)
(* ================================================================== *)

Unset Implicit Arguments.

(* ================================================================== *)

Lemma eqb_false_of_neq (a b : string) : a <> b -> (a =? b)%string = false.
Proof. intro H. now apply String.eqb_neq. Qed.

Lemma rejected_iff (a : option string) (key : string) :
  rejected a key = true <-> a <> Some ("Bearer " ++ key).
Proof.
  unfold rejected. destruct a as [h|]; [|split; [discriminate | reflexivity]].
  destruct (String.eqb_spec h ("Bearer " ++ key)) as [->|Hne].
  - simpl. split; [discriminate | intro H; now elim H].
  - rewrite orb_true_r. split; [congruence | reflexivity].
Qed.

Lemma configured_nonempty (k : option string) (key : string) :
  configured k = Some key <-> k = Some key /\ key <> "".
Proof.
  unfold configured. destruct k as [s|]; [|split; [discriminate | intros [H _]; discriminate]].
  destruct (String.eqb_spec s "") as [->|Hne]; split.
  - discriminate.
  - intros [H Hk]. congruence.
  - intros [= <-]. now split.
  - intros [[= <-] _]. reflexivity.
Qed.

Section TokenCheck.
Variables (env : Env) (req : Request) (key : string).
Hypothesis token : configured (env "API_KEY") = Some key.

Lemma Main_unauthorized_iff :
  Main.unauthorized env req = true <-> ~ presents req key.
Proof. unfold Main.unauthorized, Main.AUTHORIZATION_KEY. rewrite token. apply rejected_iff. Qed.

Lemma Part000_unauthorized_iff :
  Part000.unauthorized env req = true <-> ~ presents req key.
Proof.
  unfold Part000.unauthorized, Part000.AUTHORIZATION_KEY. rewrite token. apply rejected_iff.
Qed.

Lemma Part001_unauthorized_iff :
  Part001.unauthorized env req = true <-> ~ presents req key.
Proof.
  unfold Part001.unauthorized, Part001.AUTHORIZATION_KEY. rewrite token. apply rejected_iff.
Qed.
End TokenCheck.

(** What each script answers once the token check has turned the request down. *)
Lemma Main_rejects env req w st :
  method req <> "OPTIONS" -> Main.unauthorized env req = true ->
  Main.handler env req w st =
    (Ok {| status := 401;
           headers := [ ("Content-Type", "application/json") ];
           response_body :=
             BodyText (JSON_stringify (JObj [ ("error", JStr "Unauthorized") ])) |},
     st).
Proof.
  intros Hm Hu. unfold Main.handler.
  rewrite (eqb_false_of_neq _ _ Hm), Hu. reflexivity.
Qed.

Lemma Part000_rejects env req w :
  method req <> "OPTIONS" -> pathname req = "/v1/chat/completions" ->
  Part000.unauthorized env req = true ->
  Part000.handler env req w start =
    (Ok {| status := 401;
           headers := [ ("Access-Control-Allow-Origin", "*") ];
           response_body := BodyText "Unauthorized" |},
     {| clock_reads := 1; uuids_drawn := 0; trace := [Log] |}).
Proof.
  intros Hm Hp Hu. unfold Part000.handler, Part000.handleChatCompletions.
  rewrite (eqb_false_of_neq _ _ Hm), Hp. cbn. unfold bind, try_catch. cbn.
  rewrite Hu. reflexivity.
Qed.

Lemma Part001_rejects env req w st :
  method req <> "OPTIONS" -> pathname req = "/v1/chat/completions" ->
  Part001.unauthorized env req = true ->
  Part001.handler env req w st =
    (Ok {| status := 401; headers := []; response_body := BodyText "Unauthorized" |}, st).
Proof.
  intros Hm Hp Hu. unfold Part001.handler, Part001.handleChatCompletions.
  rewrite (eqb_false_of_neq _ _ Hm), Hp, Hu. reflexivity.
Qed.

(** ** The [Response] constructor *)

Lemma new_Response_cases b s h w st :
  (new_Response b s h w st =
     (Ok {| status := s; headers := h; response_body := b |}, st)
   /\ valid_status s = true) \/
  (exists e, new_Response b s h w st = (Throw e, st)).
Proof.
  unfold new_Response.
  destruct (valid_status s) eqn:Hr; cbn [negb].
  - destruct (null_body_status s && _).
    + right. eexists. reflexivity.
    + left. split; reflexivity.
  - right. eexists. reflexivity.
Qed.

Lemma new_Response_ok b s h w st :
  valid_status s = true ->
  null_body_status s = false ->
  new_Response b s h w st =
    (Ok {| status := s; headers := h; response_body := b |}, st).
Proof. intros H1 H2. unfold new_Response. rewrite H1, H2. reflexivity. Qed.

Lemma new_Response_null s h w st :
  valid_status s = true ->
  new_Response BodyNull s h w st =
    (Ok {| status := s; headers := h; response_body := BodyNull |}, st).
Proof. intros H1. unfold new_Response. rewrite H1, andb_false_r. reflexivity. Qed.

(** ** Walking through a handler *)

(** Settle one [new Response(...)]: by evaluation when the status is a
    literal, by cases on the constructor's checks otherwise. *)
Ltac respond :=
  match goal with
  | |- context [new_Response ?b ?s ?h ?w ?st] =>
      first [ rewrite (new_Response_ok b s h w st) by reflexivity
            | rewrite (new_Response_null s h w st) by reflexivity
            | let E := fresh "E" in
              destruct (new_Response_cases b s h w st) as [[E ?] | [? E]];
              rewrite E ]
  end.

Ltac monad :=
  unfold fetch, req_json, console_error, console_log, unix_seconds;
  unfold bind, try_catch, lift, ret, throw, emit, Date_now, crypto_randomUUID;
  cbv beta iota zeta; cbn [clock_reads uuids_drawn trace fst snd app negb].

(** Split on the innermost scrutinee the run is stuck on. *)
Ltac step :=
  match goal with
  | |- context [match ?x with _ => _ end] =>
      lazymatch x with
      | context [match _ with _ => _ end] => fail
      | context [new_Response] => fail
      | _ => destruct x eqn:?
      end
  end.

Ltac walk using_ :=
  repeat (first [ respond | step ]; using_;
          cbv beta iota zeta; cbn [clock_reads uuids_drawn trace fst snd app negb]).

Ltac no_upstream_call :=
  let C := fresh in intros C; exfalso; apply C; reflexivity.

Lemma get_defined v k x k' : get v k = Ok x -> exists y, get v k' = Ok y.
Proof.
  destruct v; simpl; try discriminate; intros _; try (eexists; reflexivity).
  destruct (own_property props k'); eexists; reflexivity.
Qed.

Lemma granted_passes env req :
  granted env req ->
  match configured (env "API_KEY") with
  | Some key => rejected (authorization req) key
  | None => false
  end = false.
Proof.
  intro G. destruct (configured (env "API_KEY")) as [key|] eqn:Hk; [|reflexivity].
  apply not_true_is_false. intro H. apply rejected_iff in H. now apply H, G.
Qed.

Lemma no_key_granted req : granted no_env req.
Proof. intros key H. discriminate H. Qed.

(* ================================================================== *)
(** * [trim] removes the white space at both ends, and nothing else *)
(* ================================================================== *)

Lemma trimStart_split s :
  exists l, s = l ++ trimStart s /\ blank l = true /\
            starts_blank (trimStart s) = false.
Proof.
  induction s as [|c s IH]; simpl.
  - exists "". auto.
  - destruct (is_white_space c) eqn:Hc.
    + destruct IH as (l & Hs & Hl & Ht). exists (String c l). simpl.
      rewrite Hc, Hl. repeat split; [congruence | assumption].
    + exists "". simpl. auto.
Qed.

Lemma trimEnd_split s :
  exists r, s = trimEnd s ++ r /\ blank r = true /\ ends_blank (trimEnd s) = false.
Proof.
  induction s as [|c s IH]; simpl.
  - exists "". auto.
  - destruct IH as (r & Hs & Hr & Ht).
    destruct (trimEnd s) as [|d t] eqn:E.
    + destruct (is_white_space c) eqn:Hc.
      * exists (String c s). simpl in *. subst r. rewrite Hc, Hr. auto.
      * exists r. simpl in *. rewrite Hc. subst. auto.
    + exists r. simpl in *. repeat split; [congruence | assumption | exact Ht].
Qed.

Lemma trimEnd_head s : starts_blank s = false -> starts_blank (trimEnd s) = false.
Proof.
  destruct s as [|c s]; simpl; [reflexivity|]. intro Hc.
  destruct (trimEnd s); [rewrite Hc|]; simpl; auto.
Qed.

Lemma trim_stripped s : stripped s (trim s).
Proof.
  unfold stripped, trim.
  destruct (trimStart_split s) as (l & Hs & Hl & Hh).
  destruct (trimEnd_split (trimStart s)) as (r & Ht & Hr & He).
  exists l, r. repeat split; auto.
  - now rewrite <- Ht.
  - now apply trimEnd_head.
Qed.

Lemma trimStart_blank l x : blank l = true -> trimStart (l ++ x) = trimStart x.
Proof.
  induction l as [|c l IH]; simpl; [reflexivity|].
  intros [Hc Hl]%andb_prop. rewrite Hc. auto.
Qed.

Lemma trimEnd_blank x r : blank r = true -> trimEnd (x ++ r) = trimEnd x.
Proof.
  intro Hr. induction x as [|c x IH]; simpl.
  - induction r as [|d r IHr]; simpl in *; [reflexivity|].
    apply andb_prop in Hr as [Hd Hr]. rewrite IHr, Hd by assumption. reflexivity.
  - now rewrite IH.
Qed.

Lemma trimEnd_fixed t : ends_blank t = false -> trimEnd t = t.
Proof.
  induction t as [|c t IH]; simpl; [reflexivity|].
  destruct t as [|d t]; [intros ->; reflexivity|].
  intro H. rewrite IH by assumption. reflexivity.
Qed.

(** The trimmed string is unique, so [trim] computes it. *)
Lemma stripped_trim s t : stripped s t -> t = trim s.
Proof.
  intros (l & r & -> & Hl & Hr & Hh & He). unfold trim.
  rewrite trimStart_blank by assumption.
  destruct t as [|c t].
  - simpl. clear Hl. induction r as [|d r IH]; simpl in *; [reflexivity|].
    apply andb_prop in Hr as [Hd Hr]. rewrite Hd. auto.
  - simpl in Hh. cbn [append trimStart]. rewrite Hh.
    change (String c (t ++ r)) with (String c t ++ r).
    rewrite trimEnd_blank by assumption. symmetry. now apply trimEnd_fixed.
Qed.

Example trim_hello : trim "  Hello  " = "Hello".
Proof. reflexivity. Qed.

Example trim_keeps_inner_space :
  trim (LF ++ " a  b " ++ LF) = "a  b".
Proof. reflexivity. Qed.

Example trim_blank : trim "   " = "".
Proof. reflexivity. Qed.

(* ================================================================== *)
(** * Serialisation, on examples *)
(* ================================================================== *)

Example stringify_drops_undefined :
  JSON_stringify (JObj [ ("project_id", JFunction "constructor");
                         ("messages", JArr []) ])
  = JSON_stringify (JObj [ ("messages", JArr []) ]).
Proof. reflexivity. Qed.

Example stringify_escapes :
  JSON_stringify (JStr ("a" ++ LF ++ dquote)) =
  dquote ++ "a\n\" ++ dquote ++ dquote.
Proof. reflexivity. Qed.

Example stringify_nested :
  JSON_stringify (JObj [ ("n", JNum (-12)); ("l", JArr [ JNull; JBool true; JUndefined ]) ])
  = "{" ++ dquote ++ "n" ++ dquote ++ ":-12," ++ dquote ++ "l" ++ dquote
    ++ ":[null,true,null]}".
Proof. reflexivity. Qed.

Example ToString_of_array :
  ToString (JArr [ JStr "websim-chat" ]) = Ok "websim-chat".
Proof. reflexivity. Qed.

(* ================================================================== *)
(** * Preflight and the bearer-token check *)
(* ================================================================== *)

(** C6.  An OPTIONS request, whatever its path, headers and body, and
    whatever the environment configures, is answered by each of the three
    scripts with status 204 and the three CORS headers, without any effect
    having taken place: no token is compared, no body read, no upstream
    called. *)
Theorem preflight_unconditional (env : Env) (w : World) (st : State) (req : Request) :
  method req = "OPTIONS" ->
  Main.handler env req w st = (Ok CORS_preflight, st) /\
  Part000.handler env req w st = (Ok CORS_preflight, st) /\
  Part001.handler env req w st = (Ok CORS_preflight, st).
Proof.
  intro Hm. unfold Main.handler, Part000.handler, Part001.handler.
  rewrite Hm. repeat split; reflexivity.
Qed.

Lemma preflight_unconditional_witness :
  method preflight_request = "OPTIONS" /\
  Main.handler env_with_key preflight_request (stubbed 0 1 hello) start =
    (Ok CORS_preflight, start).
Proof.
  split; [reflexivity|].
  apply (preflight_unconditional env_with_key (stubbed 0 1 hello) start
           preflight_request).
  reflexivity.
Defined.

(** C4.  With a bearer token configured, a request to the chat endpoint
    (and, in [main.ts], to the image endpoint) whose Authorization header
    is missing or differs from ["Bearer " ++ token] is answered 401, and the
    run contains no upstream call. *)
Theorem unauthorized_is_401 (env : Env) (w : World) (req : Request) (key : string) :
  configured (env "API_KEY") = Some key ->
  ~ presents req key ->
  method req <> "OPTIONS" ->
  (pathname req = "/v1/chat/completions" \/ pathname req = "/v1/images/generations" ->
   exists resp st, Main.handler env req w start = (Ok resp, st) /\
                   status resp = 401 /\ upstream_calls st = []) /\
  (pathname req = "/v1/chat/completions" ->
   exists resp st, Part000.handler env req w start = (Ok resp, st) /\
                   status resp = 401 /\ upstream_calls st = []) /\
  (pathname req = "/v1/chat/completions" ->
   exists resp st, Part001.handler env req w start = (Ok resp, st) /\
                   status resp = 401 /\ upstream_calls st = []).
Proof.
  intros Hk Hbad Hm. repeat split.
  - intros _. eexists _, _. split.
    + apply Main_rejects; [assumption|]. now apply (Main_unauthorized_iff env req key Hk).
    + split; reflexivity.
  - intros Hp. eexists _, _. split.
    + apply Part000_rejects; try assumption.
      now apply (Part000_unauthorized_iff env req key Hk).
    + split; reflexivity.
  - intros Hp. eexists _, _. split.
    + apply Part001_rejects; try assumption.
      now apply (Part001_unauthorized_iff env req key Hk).
    + split; reflexivity.
Qed.

Lemma wrong_token_not_presented : ~ presents wrong_token_request "secret".
Proof. unfold presents. simpl. discriminate. Qed.

Lemma unauthorized_is_401_witness :
  configured (env_with_key "API_KEY") = Some "secret" /\
  ~ presents wrong_token_request "secret" /\
  method wrong_token_request <> "OPTIONS" /\
  exists resp st,
    Part000.handler env_with_key wrong_token_request (stubbed 0 1 hello) start
      = (Ok resp, st) /\
    status resp = 401 /\ upstream_calls st = [].
Proof.
  split; [reflexivity|]. split; [exact wrong_token_not_presented|].
  split; [simpl; discriminate|].
  refine (proj1 (proj2 (unauthorized_is_401 env_with_key (stubbed 0 1 hello)
                          wrong_token_request "secret" eq_refl
                          wrong_token_not_presented _)) eq_refl).
  simpl; discriminate.
Defined.




(* ================================================================== *)
(** * The models list *)
(* ================================================================== *)

Lemma registered_ids env :
  Object_keys (Main.MODEL_MAPPING env) = [ "websim-chat"; "websim-image" ] /\
  Object_keys (Part000.MODEL_MAPPING env) = [ "websim-chat" ] /\
  Object_keys (Part001.MODEL_MAPPING env) = [ "websim-chat" ].
Proof. repeat split. Qed.

Lemma registered_ids_distinct env : NoDup (Object_keys (Main.MODEL_MAPPING env)).
Proof.
  simpl. constructor.
  - simpl. intros [H|[]]. discriminate H.
  - constructor; [intros [] | constructor].
Qed.

(** C8 does not hold on [main.ts] as stated: with a token configured, a
    GET of [/v1/models] that carries no Authorization header is answered
    401, not 200. *)
Lemma models_need_token_in_main :
  configured (env_with_key "API_KEY") = Some "secret" /\
  authorization models_request = None /\
  exists resp st,
    Main.handler env_with_key models_request (stubbed 0 1 hello) start = (Ok resp, st) /\
    status resp = 401 /\ status resp <> 200.
Proof.
  repeat split. eexists _, _. split; [reflexivity|]. split; [reflexivity | discriminate].
Qed.

(** What a listing holds, read along its paths: the list marker, and for
    each entry its id, the type tag "model", the creation time and the
    owner "user". *)
Lemma listing_fields id1 t1 id2 t2 :
  let answer := listing [ listed_model id1 t1; listed_model id2 t2 ] in
  select answer [Key "object"] = JStr "list" /\
  listed_ids answer = [ JStr id1; JStr id2 ] /\
  select answer [Key "data"; Index 0; Key "id"] = JStr id1 /\
  select answer [Key "data"; Index 0; Key "object"] = JStr "model" /\
  select answer [Key "data"; Index 0; Key "created"] = JNum t1 /\
  select answer [Key "data"; Index 0; Key "owned_by"] = JStr "user" /\
  select answer [Key "data"; Index 1; Key "id"] = JStr id2 /\
  select answer [Key "data"; Index 1; Key "object"] = JStr "model" /\
  select answer [Key "data"; Index 1; Key "created"] = JNum t2 /\
  select answer [Key "data"; Index 1; Key "owned_by"] = JStr "user" /\
  select answer [Key "data"; Index 2] = JUndefined.
Proof. repeat split. Qed.

(** The ids listed are the keys of the registry, each once and in table
    order. *)
Lemma listing_names_the_registry env t1 t2 :
  listed_ids (listing [ listed_model "websim-chat" t1; listed_model "websim-image" t2 ])
    = map JStr (Object_keys (Main.MODEL_MAPPING env)) /\
  listed_ids (listing [ listed_model "websim-chat" t1 ])
    = map JStr (Object_keys (Part000.MODEL_MAPPING env)) /\
  listed_ids (listing [ listed_model "websim-chat" t1 ])
    = map JStr (Object_keys (Part001.MODEL_MAPPING env)) /\
  NoDup (Object_keys (Main.MODEL_MAPPING env)) /\
  NoDup (Object_keys (Part000.MODEL_MAPPING env)) /\
  NoDup (Object_keys (Part001.MODEL_MAPPING env)).
Proof.
  split; [reflexivity|]. split; [reflexivity|]. split; [reflexivity|].
  split; [apply registered_ids_distinct|].
  split; (constructor; [intros [] | constructor]).
Qed.

(** C8, amended.  [part_000] and [part_001] answer [/v1/models] without
    looking at the Authorization header; [main.ts] answers it once the
    request has passed the token check, and with 401 otherwise.  The answer
    is 200 with the JSON object [{object: "list", data: [...]}] holding one
    entry [{id, object: "model", created, owned_by: "user"}] per registered
    id, each id once and in table order, each [created] being the clock
    reading (in seconds) taken while that entry is built. *)
Theorem models_listing (env : Env) (w : World) (req : Request) :
  method req <> "OPTIONS" ->
  pathname req = "/v1/models" ->
  (exists st,
     Part000.handler env req w start =
       (Ok {| status := 200;
              headers := [ ("Access-Control-Allow-Origin", "*");
                           ("Content-Type", "application/json") ];
              response_body :=
                BodyText (JSON_stringify
                            (JObj [ ("object", JStr "list");
                                    ("data",
                                     JArr [ JObj [ ("id", JStr "websim-chat");
                                                   ("object", JStr "model");
                                                   ("created", JNum (clock w 0 / 1000));
                                                   ("owned_by", JStr "user") ] ]) ])) |},
        st)) /\
  (exists st,
     Part001.handler env req w start =
       (Ok {| status := 200;
              headers := [ ("Content-Type", "application/json") ];
              response_body :=
                BodyText (JSON_stringify
                            (listing
                               [ listed_model "websim-chat" (clock w 0 / 1000) ])) |},
        st)) /\
  (granted env req ->
   exists st,
     Main.handler env req w start =
       (Ok {| status := 200;
              headers := [ ("Content-Type", "application/json") ];
              response_body :=
                BodyText (JSON_stringify
                            (listing
                               [ listed_model "websim-chat" (clock w 0 / 1000);
                                 listed_model "websim-image" (clock w 1 / 1000) ])) |},
        st)) /\
  (forall key, configured (env "API_KEY") = Some key -> ~ presents req key ->
   exists resp st,
     Main.handler env req w start = (Ok resp, st) /\ status resp = 401).
Proof.
  intros Hm Hp. repeat split.
  - unfold Part000.handler. rewrite (eqb_false_of_neq _ _ Hm), Hp.
    eexists. reflexivity.
  - unfold Part001.handler. rewrite (eqb_false_of_neq _ _ Hm), Hp.
    eexists. reflexivity.
  - intro G. unfold Main.handler, Main.unauthorized, Main.AUTHORIZATION_KEY.
    rewrite (eqb_false_of_neq _ _ Hm), (granted_passes env req G), Hp.
    eexists. reflexivity.
  - intros key Hk Hbad. eexists _, _. split.
    + apply Main_rejects; [assumption|].
      now apply (Main_unauthorized_iff env req key Hk).
    + reflexivity.
Qed.

Lemma models_listing_witness :
  method models_request <> "OPTIONS" /\
  pathname models_request = "/v1/models" /\
  exists st,
    Part000.handler env_with_key models_request (stubbed 1700000000000 1 hello) start =
      (Ok {| status := 200;
             headers := [ ("Access-Control-Allow-Origin", "*");
                          ("Content-Type", "application/json") ];
             response_body :=
               BodyText (JSON_stringify
                           (JObj [ ("object", JStr "list");
                                   ("data",
                                    JArr [ JObj [ ("id", JStr "websim-chat");
                                                  ("object", JStr "model");
                                                  ("created", JNum 1700000000);
                                                  ("owned_by", JStr "user") ] ]) ])) |},
       st).
Proof.
  split; [simpl; discriminate|]. split; [reflexivity|].
  refine (proj1 (models_listing env_with_key (stubbed 1700000000000 1 hello)
                   models_request _ eq_refl)).
  simpl; discriminate.
Defined.

(* ================================================================== *)
(** * Upstream failures *)
(* ================================================================== *)

Lemma not_ok_not_200 r : reply_ok r = false -> reply_status r <> 200.
Proof. unfold reply_ok. intros H E. rewrite E in H. discriminate H. Qed.

Ltac failure_status Hok :=
  eexists; split; [reflexivity|]; cbn [status]; split;
  [ first [ discriminate | exact (not_ok_not_200 _ Hok) ] | auto ].

Lemma Part001_fails_gracefully env w req r :
  (forall url b, upstream w url b = Ok r) -> reply_ok r = false ->
  fails_gracefully r (Part001.handler env req w start).
Proof.
  intros Hup Hok. unfold fails_gracefully.
  unfold Part001.handler, Part001.handleChatCompletions, preflight, Part001.handleModels.
  cbn [Object_keys Part001.MODEL_MAPPING map fst mapM].
  monad. walk ltac:(rewrite ?Hup, ?Hok).
  all: try no_upstream_call.
  all: intros _; failure_status Hok.
Qed.

Lemma Part000_fails_gracefully env w req r :
  (forall url b, upstream w url b = Ok r) -> reply_ok r = false ->
  fails_gracefully r (Part000.handler env req w start).
Proof.
  intros Hup Hok. unfold fails_gracefully.
  unfold Part000.handler, Part000.handleChatCompletions, preflight, Part000.handleModels.
  cbn [Object_keys Part000.MODEL_MAPPING map fst mapM].
  monad. walk ltac:(rewrite ?Hup, ?Hok).
  all: try no_upstream_call.
  all: intros _; failure_status Hok.
Qed.

Lemma Main_fails_gracefully env w req r :
  (forall url b, upstream w url b = Ok r) -> reply_ok r = false ->
  fails_gracefully r (Main.handler env req w start).
Proof.
  intros Hup Hok. unfold fails_gracefully.
  unfold Main.handler, Main.handleChatCompletions, Main.handleImageGeneration,
    Main.internal_error, preflight, Main.handleModels.
  cbn [Object_keys Main.MODEL_MAPPING map fst mapM].
  monad. walk ltac:(rewrite ?Hup, ?Hok).
  all: try no_upstream_call.
  all: intros _; failure_status Hok.
Qed.

(** C5.  When the upstream answers with a status outside 200..299, a run
    that reached the upstream ends in a response and not in a thrown error;
    the status of that response is the upstream's own or 500, and it is not
    200.  ([main.ts] always answers 500; the two other scripts pass the
    upstream status on, and answer 500 when [Response] refuses it.) *)
Theorem upstream_failure_is_reported (env : Env) (w : World) (req : Request) (r : Reply) :
  (forall url b, upstream w url b = Ok r) ->
  reply_ok r = false ->
  fails_gracefully r (Main.handler env req w start) /\
  fails_gracefully r (Part000.handler env req w start) /\
  fails_gracefully r (Part001.handler env req w start).
Proof.
  intros Hup Hok. repeat split.
  - now apply Main_fails_gracefully.
  - now apply Part000_fails_gracefully.
  - now apply Part001_fails_gracefully.
Qed.

Lemma upstream_failure_is_reported_witness :
  (forall url b, upstream (stubbed 0 1 unavailable) url b = Ok unavailable) /\
  reply_ok unavailable = false /\
  upstream_calls (snd (Part000.handler no_env plain_request (stubbed 0 1 unavailable) start))
    <> [] /\
  fails_gracefully unavailable
    (Part000.handler no_env plain_request (stubbed 0 1 unavailable) start).
Proof.
  split; [reflexivity|]. split; [reflexivity|]. split; [discriminate|].
  refine (proj1 (proj2 (upstream_failure_is_reported no_env (stubbed 0 1 unavailable)
                          plain_request unavailable _ eq_refl))).
  reflexivity.
Defined.

(** What the three scripts answer to one and the same 503. *)
Lemma unavailable_answers :
  fst (Main.handler no_env plain_request (stubbed 0 1 unavailable) start) =
    Ok {| status := 500; headers := [];
          response_body :=
            BodyText (JSON_stringify
                        (JObj [ ("error", JStr "Upstream API error: 503") ])) |} /\
  fst (Part000.handler no_env plain_request (stubbed 0 1 unavailable) start) =
    Ok {| status := 503; headers := [ ("Access-Control-Allow-Origin", "*") ];
          response_body := BodyText "Upstream API error: Service Unavailable" |} /\
  fst (Part001.handler no_env plain_request (stubbed 0 1 unavailable) start) =
    Ok {| status := 503; headers := [];
          response_body := BodyText "Upstream API error: Service Unavailable" |}.
Proof. repeat split. Qed.

(** ** Which scripts always answer *)

(** [main.ts] answers every request: its translators run inside [try]. *)
Lemma Main_always_answers env w req :
  exists resp, fst (Main.handler env req w start) = Ok resp.
Proof.
  unfold Main.handler, Main.handleChatCompletions, Main.handleImageGeneration,
    Main.internal_error, preflight, Main.handleModels.
  cbn [Object_keys Main.MODEL_MAPPING map fst mapM].
  monad. walk idtac.
  all: eexists; reflexivity.
Qed.

(** [part_001] reads [openaiRequest.model] outside of any [try]: a body
    that parses to [null] makes the handler throw. *)
Lemma Part001_throws_on_null_body w :
  Part001.handler no_env null_request w start =
    (Throw (cannot_read "null" "model"),
     {| clock_reads := 0; uuids_drawn := 0; trace := [ReadBody] |}).
Proof. reflexivity. Qed.

(* ================================================================== *)
(** * A chat exchange that succeeds *)
(* ================================================================== *)

Lemma or_default_truthy a b rest :
  negb ((or_default a (String b rest) =? "")%string) = true.
Proof.
  unfold or_default. destruct a as [s|]; [|reflexivity].
  destruct (s =? "")%string eqn:E; [reflexivity | now rewrite E].
Qed.

Section ChatExchange.
Variables (env : Env) (w : World) (req : Request).
Variables (openaiRequest modelId websimResponse : jsval) (r : Reply).
Hypothesis not_preflight : method req <> "OPTIONS".
Hypothesis chat : pathname req = "/v1/chat/completions".
Hypothesis through : granted env req.
Hypothesis parsed : body req = Ok openaiRequest.
Hypothesis model : get openaiRequest "model" = Ok modelId.
Hypothesis known : ToString modelId = Ok "websim-chat".
Hypothesis replied : forall url b, upstream w url b = Ok r.
Hypothesis success : reply_ok r = true.
Hypothesis json : reply_json r = Ok websimResponse.

Ltac enter :=
  rewrite ?(eqb_false_of_neq _ _ not_preflight), ?(granted_passes env req through), ?chat;
  cbn [String.eqb Ascii.eqb Bool.eqb].

Ltac run_with H := rewrite H; cbn -[JSON_stringify WEBSIM_CHAT_API_URL Z.div].

Lemma Main_chat_completion c :
  get websimResponse "content" = Ok (JStr c) ->
  exists st,
    Main.handler env req w start =
      (Ok (completion_response w modelId (trim c)), st).
Proof.
  intro Hc. destruct (get_defined _ _ _ "messages" model) as [messages Hm].
  unfold Main.handler, Main.unauthorized, Main.AUTHORIZATION_KEY. enter.
  unfold Main.handleChatCompletions, index. monad.
  rewrite parsed, model, known. cbn -[JSON_stringify WEBSIM_CHAT_API_URL Z.div].
  run_with Hm. rewrite replied. run_with success. rewrite json. run_with Hc.
  eexists. reflexivity.
Qed.

Lemma Part001_chat_completion c :
  get websimResponse "content" = Ok (JStr c) ->
  exists st,
    Part001.handler env req w start =
      (Ok (completion_response w modelId (trim c)), st).
Proof.
  intro Hc. destruct (get_defined _ _ _ "messages" model) as [messages Hm].
  unfold Part001.handler, Part001.handleChatCompletions,
    Part001.unauthorized, Part001.AUTHORIZATION_KEY, index. enter.
  monad. rewrite parsed, model, known. cbn -[JSON_stringify WEBSIM_CHAT_API_URL Z.div].
  unfold Part001.WEBSIM_PROJECT_ID. rewrite or_default_truthy. cbn -[JSON_stringify WEBSIM_CHAT_API_URL Z.div].
  run_with Hm. rewrite replied. run_with success. rewrite json. run_with Hc.
  eexists. reflexivity.
Qed.

Lemma Part000_exchange raw content stream :
  get websimResponse "content" = Ok raw ->
  Part000.trimmed_content raw = Ok content ->
  get openaiRequest "stream" = Ok stream ->
  exists st,
    Part000.handler env req w start =
      (Ok (if is_true stream then stream_response w modelId content
           else completion_response_v2 w modelId content), st).
Proof.
  intros Hraw Hc Hs. destruct (get_defined _ _ _ "messages" model) as [messages Hm].
  unfold Part000.handler, Part000.handleChatCompletions, Part000.emulated_stream,
    Part000.unauthorized, Part000.AUTHORIZATION_KEY, index. enter.
  monad. rewrite parsed, model, known. cbn -[JSON_stringify WEBSIM_CHAT_API_URL Z.div].
  unfold Part000.WEBSIM_PROJECT_ID. rewrite or_default_truthy.
  cbn -[JSON_stringify WEBSIM_CHAT_API_URL Z.div].
  run_with Hm. rewrite replied. run_with success. rewrite json. run_with Hraw.
  run_with Hc. rewrite Hs. destruct (is_true stream); eexists; reflexivity.
Qed.

End ChatExchange.

(** The frames of the emulated stream all have the shape
    [data: <payload>] followed by a blank line. *)
Lemma stream_response_frames w model content :
  exists p1 p2,
    response_body (stream_response w model content) =
      BodyStream [ Part000.sse_frame p1; Part000.sse_frame p2;
                   Part000.sse_frame "[DONE]" ] true /\
    p1 = JSON_stringify
           (Part000.streamChunk ("chatcmpl-" ++ randomUUID w 0) (clock w 1 / 1000)
              model content) /\
    p2 = JSON_stringify
           (Part000.finalChunk ("chatcmpl-" ++ randomUUID w 0) (clock w 2 / 1000) model).
Proof. eexists _, _. repeat split. Qed.

(** What the two chunks hold, read along their paths. *)
Lemma stream_chunks_fields chunkId t1 t2 model content :
  let first := Part000.streamChunk chunkId t1 model content in
  let last := Part000.finalChunk chunkId t2 model in
  select first [Key "object"] = JStr "chat.completion.chunk" /\
  select first [Key "choices"; Index 0; Key "delta"; Key "content"] = JStr content /\
  select first [Key "choices"; Index 0; Key "finish_reason"] = JNull /\
  select last [Key "choices"; Index 0; Key "delta"] = JObj [] /\
  select last [Key "choices"; Index 0; Key "finish_reason"] = JStr "stop" /\
  select last [Key "id"] = select first [Key "id"] /\
  select last [Key "model"] = select first [Key "model"].
Proof. repeat split. Qed.

(** C1 does not hold on [main.ts] as stated: a request with
    [stream: true] that succeeds against the upstream is answered with an
    [application/json] body, not with an event stream. *)
Lemma stream_flag_ignored_by_main :
  get (chat_request "websim-chat" [ ("stream", JBool true) ]) "stream" = Ok (JBool true) /\
  exists resp st,
    Main.handler no_env streaming_request (stubbed 0 1 hello) start = (Ok resp, st) /\
    status resp = 200 /\
    header resp "Content-Type" = Some "application/json" /\
    header resp "Content-Type" <> Some "text/event-stream" /\
    forall chunks closed, response_body resp <> BodyStream chunks closed.
Proof.
  split; [reflexivity|]. eexists _, _. split; [reflexivity|].
  repeat split; discriminate.
Qed.

(** C1, amended.  In [part_000], a chat request with [stream === true]
    that succeeds against the upstream is answered 200 with Content-Type
    [text/event-stream], [Cache-Control: no-cache] and
    [Connection: keep-alive]; the body is three frames [data: ...] each
    followed by a blank line, and is closed at once: a
    [chat.completion.chunk] whose [delta.content] is the whole trimmed
    content with [finish_reason] null, a final chunk with an empty [delta]
    and [finish_reason] "stop" under the same [id] and [model], and
    [data: [DONE]].  [main.ts] and [part_001] have no streaming path and
    answer the same request with the JSON [chat.completion]. *)
Theorem streaming_is_emulated_in_v2
    (env : Env) (w : World) (req : Request)
    (openaiRequest modelId websimResponse : jsval) (r : Reply) (c : string) :
  method req <> "OPTIONS" ->
  pathname req = "/v1/chat/completions" ->
  granted env req ->
  body req = Ok openaiRequest ->
  get openaiRequest "model" = Ok modelId ->
  ToString modelId = Ok "websim-chat" ->
  get openaiRequest "stream" = Ok (JBool true) ->
  (forall url b, upstream w url b = Ok r) ->
  reply_ok r = true ->
  reply_json r = Ok websimResponse ->
  get websimResponse "content" = Ok (JStr c) ->
  (exists st, Part000.handler env req w start =
                (Ok (stream_response w modelId (trim c)), st)) /\
  (exists st, Main.handler env req w start =
                (Ok (completion_response w modelId (trim c)), st)) /\
  (exists st, Part001.handler env req w start =
                (Ok (completion_response w modelId (trim c)), st)).
Proof.
  intros Hm Hp G Hb Hmodel Hk Hs Hup Hok Hj Hc. repeat split.
  - exact (Part000_exchange env w req openaiRequest modelId websimResponse r
             Hm Hp G Hb Hmodel Hk Hup Hok Hj (JStr c) (trim c) (JBool true)
             Hc eq_refl Hs).
  - exact (Main_chat_completion env w req openaiRequest modelId websimResponse r
             Hm Hp G Hb Hmodel Hk Hup Hok Hj c Hc).
  - exact (Part001_chat_completion env w req openaiRequest modelId websimResponse r
             Hm Hp G Hb Hmodel Hk Hup Hok Hj c Hc).
Qed.

Lemma streaming_is_emulated_in_v2_witness :
  exists st,
    Part000.handler no_env streaming_request (stubbed 1700000000000 1 hello) start =
      (Ok (stream_response (stubbed 1700000000000 1 hello) (JStr "websim-chat") "Hello"),
       st).
Proof.
  refine (proj1 (streaming_is_emulated_in_v2 no_env (stubbed 1700000000000 1 hello)
                   streaming_request
                   (chat_request "websim-chat" [ ("stream", JBool true) ])
                   (JStr "websim-chat")
                   (JObj [ ("content", JStr "  Hello  ") ])
                   hello "  Hello  "
                   _ eq_refl (no_key_granted _) eq_refl eq_refl eq_refl eq_refl
                   _ eq_refl eq_refl eq_refl)).
  - simpl; discriminate.
  - reflexivity.
Defined.

(** The two chunks read the clock one after the other: when a second
    begins in between, their [created] fields differ. *)
Lemma chunk_timestamps_can_differ :
  let w := stubbed 1700000000998 1 hello in
  exists st,
    Part000.handler no_env streaming_request w start =
      (Ok (stream_response w (JStr "websim-chat") "Hello"), st) /\
    clock w 1 / 1000 = 1700000000 /\
    clock w 2 / 1000 = 1700000001.
Proof. eexists. repeat split. Qed.

(* ================================================================== *)
(** * The content of a completion *)
(* ================================================================== *)

Lemma completion_fields uuid created model content :
  let answer := chat_completion uuid created model content in
  select answer [Key "choices"; Index 0; Key "message"; Key "content"] = JStr content /\
  select answer [Key "choices"; Index 0; Key "finish_reason"] = JStr "stop".
Proof. split; reflexivity. Qed.

(** The first half of C2 holds in the three scripts: a non-streaming
    exchange that succeeds with a string [content] is answered 200 with a
    [chat.completion] whose content is that string, trimmed. *)
Lemma completion_content_is_trimmed
    (env : Env) (w : World) (req : Request)
    (openaiRequest modelId websimResponse stream : jsval) (r : Reply) (c : string) :
  method req <> "OPTIONS" ->
  pathname req = "/v1/chat/completions" ->
  granted env req ->
  body req = Ok openaiRequest ->
  get openaiRequest "model" = Ok modelId ->
  ToString modelId = Ok "websim-chat" ->
  get openaiRequest "stream" = Ok stream ->
  is_true stream = false ->
  (forall url b, upstream w url b = Ok r) ->
  reply_ok r = true ->
  reply_json r = Ok websimResponse ->
  get websimResponse "content" = Ok (JStr c) ->
  stripped c (trim c) /\
  (exists st, Main.handler env req w start =
                (Ok (completion_response w modelId (trim c)), st)) /\
  (exists st, Part000.handler env req w start =
                (Ok (completion_response_v2 w modelId (trim c)), st)) /\
  (exists st, Part001.handler env req w start =
                (Ok (completion_response w modelId (trim c)), st)).
Proof.
  intros Hm Hp G Hb Hmodel Hk Hs Hns Hup Hok Hj Hc. repeat split.
  - apply trim_stripped.
  - exact (Main_chat_completion env w req openaiRequest modelId websimResponse r
             Hm Hp G Hb Hmodel Hk Hup Hok Hj c Hc).
  - destruct (Part000_exchange env w req openaiRequest modelId websimResponse r
                Hm Hp G Hb Hmodel Hk Hup Hok Hj (JStr c) (trim c) stream
                Hc eq_refl Hs) as [st H].
    rewrite Hns in H. now exists st.
  - exact (Part001_chat_completion env w req openaiRequest modelId websimResponse r
             Hm Hp G Hb Hmodel Hk Hup Hok Hj c Hc).
Qed.

(** The second half of C2 holds in [part_000]: an absent (or null)
    [content] is answered as the empty string. *)
Lemma absent_content_is_empty_in_v2
    (env : Env) (w : World) (req : Request)
    (openaiRequest modelId websimResponse stream raw : jsval) (r : Reply) :
  method req <> "OPTIONS" ->
  pathname req = "/v1/chat/completions" ->
  granted env req ->
  body req = Ok openaiRequest ->
  get openaiRequest "model" = Ok modelId ->
  ToString modelId = Ok "websim-chat" ->
  get openaiRequest "stream" = Ok stream ->
  (forall url b, upstream w url b = Ok r) ->
  reply_ok r = true ->
  reply_json r = Ok websimResponse ->
  get websimResponse "content" = Ok raw ->
  raw = JUndefined \/ raw = JNull ->
  exists st,
    Part000.handler env req w start =
      (Ok (if is_true stream then stream_response w modelId ""
           else completion_response_v2 w modelId ""), st).
Proof.
  intros Hm Hp G Hb Hmodel Hk Hs Hup Hok Hj Hraw Habsent.
  apply (Part000_exchange env w req openaiRequest modelId websimResponse r
           Hm Hp G Hb Hmodel Hk Hup Hok Hj raw "" stream Hraw); [|exact Hs].
  destruct Habsent as [-> | ->]; reflexivity.
Qed.

(** C2 fails on [main.ts] and on [part_001]: the upstream answers 200 with
    a JSON object that has no [content]; both scripts call [trim] on
    [undefined], the [TypeError] lands in their [catch], and the request is
    answered 500.  ([part_000] answers the same exchange 200 with an empty
    content, see [absent_content_is_empty_in_v2].) *)
Theorem absent_content_fails_outside_v2 :
  reply_ok empty_reply = true /\
  reply_json empty_reply = Ok (JObj []) /\
  get (JObj []) "content" = Ok JUndefined /\
  (exists st,
     Main.handler no_env plain_request (stubbed 0 1 empty_reply) start =
       (Ok {| status := 500; headers := [];
              response_body :=
                BodyText (JSON_stringify
                            (JObj [ ("error",
                                     JStr "Cannot read properties of undefined (reading 'trim')") ])) |},
        st)) /\
  (exists st,
     Part001.handler no_env plain_request (stubbed 0 1 empty_reply) start =
       (Ok {| status := 500; headers := [];
              response_body := BodyText "Internal Server Error" |}, st)) /\
  (exists st,
     Part000.handler no_env plain_request (stubbed 0 1 empty_reply) start =
       (Ok (completion_response_v2 (stubbed 0 1 empty_reply) (JStr "websim-chat") ""), st)).
Proof. repeat split; eexists; vm_compute; reflexivity. Qed.

(* ================================================================== *)
(** * Models that are not registered *)
(* ================================================================== *)

Section UnknownModel.
Variables (env : Env) (w : World) (req : Request) (openaiRequest : jsval) (m : string).
Hypothesis not_preflight : method req <> "OPTIONS".
Hypothesis chat : pathname req = "/v1/chat/completions".
Hypothesis through : granted env req.
Hypothesis parsed : body req = Ok openaiRequest.
Hypothesis model : get openaiRequest "model" = Ok (JStr m).
Hypothesis unknown : m <> "websim-chat".

(** [main.ts] answers 404 for every model string but ["websim-chat"], the
    image model and the names found on [Object.prototype] included, and
    stops there. *)
Lemma Main_unknown_model :
  Main.handler env req w start =
    (Ok {| status := 404; headers := [];
           response_body :=
             BodyText (JSON_stringify (not_found "Chat model not found: " m)) |},
     {| clock_reads := 0; uuids_drawn := 0; trace := [ReadBody] |}).
Proof.
  unfold Main.handler, Main.unauthorized, Main.AUTHORIZATION_KEY.
  rewrite (eqb_false_of_neq _ _ not_preflight), (granted_passes env req through), chat.
  cbn [String.eqb Ascii.eqb Bool.eqb].
  unfold Main.handleChatCompletions, index. monad.
  rewrite parsed, model. cbn [ToString get Main.MODEL_MAPPING own_property].
  rewrite (eqb_false_of_neq _ _ (not_eq_sym unknown)).
  destruct ("websim-image" =? m)%string; [reflexivity|].
  destruct (has_name Object_prototype m); reflexivity.
Qed.

(** [part_000] and [part_001] do so for the model strings that are neither
    registered nor the name of a property of [Object.prototype]. *)
Hypothesis not_inherited : has_name Object_prototype m = false.

Lemma Part000_unknown_model :
  Part000.handler env req w start =
    (Ok {| status := 404;
           headers := [ ("Access-Control-Allow-Origin", "*");
                        ("Content-Type", "application/json") ];
           response_body :=
             BodyText (JSON_stringify (not_found "Model not found: " m)) |},
     {| clock_reads := 1; uuids_drawn := 0; trace := [Log; ReadBody; Log] |}).
Proof.
  unfold Part000.handler, Part000.handleChatCompletions, Part000.unauthorized,
    Part000.AUTHORIZATION_KEY, index.
  rewrite (eqb_false_of_neq _ _ not_preflight), (granted_passes env req through), chat.
  cbn [String.eqb Ascii.eqb Bool.eqb]. monad.
  rewrite parsed, model. cbn [ToString get Part000.MODEL_MAPPING own_property].
  rewrite (eqb_false_of_neq _ _ (not_eq_sym unknown)), not_inherited. reflexivity.
Qed.

Lemma Part001_unknown_model :
  Part001.handler env req w start =
    (Ok {| status := 404; headers := [];
           response_body :=
             BodyText (JSON_stringify (not_found "Model not found: " m)) |},
     {| clock_reads := 0; uuids_drawn := 0; trace := [ReadBody] |}).
Proof.
  unfold Part001.handler, Part001.handleChatCompletions, Part001.unauthorized,
    Part001.AUTHORIZATION_KEY, index.
  rewrite (eqb_false_of_neq _ _ not_preflight), (granted_passes env req through), chat.
  cbn [String.eqb Ascii.eqb Bool.eqb]. monad.
  rewrite parsed, model. cbn [ToString get Part001.MODEL_MAPPING own_property].
  rewrite (eqb_false_of_neq _ _ (not_eq_sym unknown)), not_inherited. reflexivity.
Qed.

End UnknownModel.

(** C3 fails on [part_000] and on [part_001]: ["constructor"] is not a key
    of the model table, yet [MODEL_MAPPING["constructor"]] finds the
    function inherited from [Object.prototype], which is truthy; the
    request is not answered 404 and the upstream is called, with a payload
    that has lost its [project_id].  ([main.ts] answers 404, see
    [Main_unknown_model].) *)
Theorem inherited_name_reaches_upstream :
  Object_keys (Part000.MODEL_MAPPING no_env) = [ "websim-chat" ] /\
  (exists resp st,
     Part000.handler no_env constructor_request (stubbed 0 1 hello) start = (Ok resp, st) /\
     status resp = 200 /\
     upstream_calls st =
       [ Fetch WEBSIM_CHAT_API_URL (JSON_stringify (JObj [ ("messages", JArr []) ])) ]) /\
  (exists resp st,
     Part001.handler no_env constructor_request (stubbed 0 1 hello) start = (Ok resp, st) /\
     status resp = 200 /\
     upstream_calls st =
       [ Fetch WEBSIM_CHAT_API_URL (JSON_stringify (JObj [ ("messages", JArr []) ])) ]) /\
  (exists resp st,
     Main.handler no_env constructor_request (stubbed 0 1 hello) start = (Ok resp, st) /\
     status resp = 404 /\
     upstream_calls st = []).
Proof.
  split; [reflexivity|].
  repeat split; eexists _, _; (split; [vm_compute; reflexivity|]); split; reflexivity.
Qed.

(* ================================================================== *)
(** * CORS headers on error responses *)
(* ================================================================== *)

(** In [part_000] every request is answered, and every answer carries
    [Access-Control-Allow-Origin: *]: the preflight, the models list, the
    completions, and the 400, 401, 404, upstream-status and 500 errors. *)
Lemma Part000_readable_by_browsers env w req :
  readable_by_browsers (fst (Part000.handler env req w start)).
Proof.
  unfold readable_by_browsers.
  unfold Part000.handler, Part000.handleChatCompletions, Part000.emulated_stream,
    preflight, Part000.handleModels.
  cbn [Object_keys Part000.MODEL_MAPPING map fst mapM].
  monad. walk idtac.
  all: reflexivity.
Qed.

(** C9 fails on [main.ts] and on [part_001]: their 401, 400, 404 and 500
    answers carry no [Access-Control-Allow-Origin] header, which the same
    scripts set on their 200 answers.  ([part_000] sets it on every answer,
    see [Part000_readable_by_browsers].) *)
Theorem errors_without_cors_outside_v2 :
  (exists resp st,
     Main.handler no_env unknown_model_request (stubbed 0 1 hello) start = (Ok resp, st) /\
     status resp = 404 /\ header resp "Access-Control-Allow-Origin" = None) /\
  (exists resp st,
     Main.handler env_with_key wrong_token_request (stubbed 0 1 hello) start
       = (Ok resp, st) /\
     status resp = 401 /\ header resp "Access-Control-Allow-Origin" = None) /\
  (exists resp st,
     Main.handler no_env plain_request (stubbed 0 1 unavailable) start = (Ok resp, st) /\
     status resp = 500 /\ header resp "Access-Control-Allow-Origin" = None) /\
  (exists resp st,
     Part001.handler no_env garbled_request (stubbed 0 1 hello) start = (Ok resp, st) /\
     status resp = 400 /\ header resp "Access-Control-Allow-Origin" = None) /\
  (exists resp st,
     Part001.handler no_env unknown_model_request (stubbed 0 1 hello) start
       = (Ok resp, st) /\
     status resp = 404 /\ header resp "Access-Control-Allow-Origin" = None) /\
  (exists resp st,
     Part001.handler no_env plain_request (stubbed 0 1 unavailable) start = (Ok resp, st) /\
     status resp = 503 /\ header resp "Access-Control-Allow-Origin" = None) /\
  (exists resp st,
     Main.handler no_env plain_request (stubbed 0 1 hello) start = (Ok resp, st) /\
     status resp = 200 /\ header resp "Access-Control-Allow-Origin" = Some "*").
Proof.
  repeat split; eexists _, _; (split; [vm_compute; reflexivity|]); split; reflexivity.
Qed.

(* ================================================================== *)
(** * Image generation *)
(* ================================================================== *)

(** The [switch] of the script computes the table. *)
Lemma aspectRatio_table size : Main.aspectRatio size = aspect_ratio_of size.
Proof.
  destruct size; try reflexivity.
  unfold Main.aspectRatio, aspect_ratio_of, is_string. cbn [size_table own_property].
  rewrite (String.eqb_sym s "1792x1024"), (String.eqb_sym s "1024x1792").
  destruct ("1024x1024" =? s)%string eqn:E.
  - apply String.eqb_eq in E. subst s. reflexivity.
  - destruct ("1792x1024" =? s)%string; [reflexivity|].
    destruct ("1024x1792" =? s)%string; reflexivity.
Qed.

Lemma aspect_ratio_cases size :
  aspect_ratio_of (JStr "1792x1024") = "16:9" /\
  aspect_ratio_of (JStr "1024x1792") = "9:16" /\
  aspect_ratio_of (JStr "1024x1024") = "1:1" /\
  aspect_ratio_of JUndefined = "1:1" /\
  (size <> JStr "1792x1024" -> size <> JStr "1024x1792" -> aspect_ratio_of size = "1:1").
Proof.
  repeat split. intros H1 H2. destruct size; try reflexivity.
  unfold aspect_ratio_of. cbn [size_table own_property].
  destruct ("1024x1024" =? s)%string; [reflexivity|].
  destruct (String.eqb_spec "1792x1024" s) as [<-|_]; [now elim H1|].
  destruct (String.eqb_spec "1024x1792" s) as [<-|_]; [now elim H2|].
  reflexivity.
Qed.

(** C7.  An image request that has passed the token check and names the image
    model makes exactly one upstream call, to the image URL, whose body is
    the serialisation of [{project_id, prompt, aspect_ratio}]; the aspect
    ratio is the table entry of [size], and ["1:1"] for every size that is
    absent or not in the table, so that no size keeps the request from
    being forwarded. *)
Theorem image_request_is_forwarded
    (env : Env) (w : World) (req : Request) (openaiRequest modelId : jsval) :
  method req <> "OPTIONS" ->
  pathname req = "/v1/images/generations" ->
  granted env req ->
  body req = Ok openaiRequest ->
  get openaiRequest "model" = Ok modelId ->
  ToString modelId = Ok "websim-image" ->
  exists size prompt,
    get openaiRequest "size" = Ok size /\
    get openaiRequest "prompt" = Ok prompt /\
    upstream_calls (snd (Main.handler env req w start)) =
      [ Fetch WEBSIM_IMAGE_API_URL
          (JSON_stringify
             (image_payload (Main.WEBSIM_IMAGE_PROJECT_ID env) prompt size)) ] /\
    (size = JStr "1792x1024" -> aspect_ratio_of size = "16:9") /\
    (size = JStr "1024x1792" -> aspect_ratio_of size = "9:16") /\
    (size <> JStr "1792x1024" -> size <> JStr "1024x1792" -> aspect_ratio_of size = "1:1").
Proof.
  intros Hm Hp G Hb Hmodel Hk.
  destruct (get_defined _ _ _ "size" Hmodel) as [size Hsize].
  destruct (get_defined _ _ _ "prompt" Hmodel) as [prompt Hprompt].
  exists size, prompt. split; [assumption|]. split; [assumption|]. split.
  - unfold Main.handler, Main.unauthorized, Main.AUTHORIZATION_KEY.
    rewrite (eqb_false_of_neq _ _ Hm), (granted_passes env req G), Hp.
    cbn [String.eqb Ascii.eqb Bool.eqb].
    unfold Main.handleImageGeneration, Main.internal_error, index, image_payload. monad.
    rewrite Hb, Hmodel, Hk. cbn -[JSON_stringify WEBSIM_IMAGE_API_URL Z.div].
    rewrite Hsize. cbn -[JSON_stringify WEBSIM_IMAGE_API_URL Z.div].
    rewrite Hprompt. cbn -[JSON_stringify WEBSIM_IMAGE_API_URL Z.div].
    rewrite aspectRatio_table. unfold ret, throw.
    walk ltac:(unfold ret, throw). all: reflexivity.
  - destruct (aspect_ratio_cases size) as (_ & _ & _ & _ & Hdefault).
    repeat split; [intros ->; reflexivity | intros ->; reflexivity | exact Hdefault].
Qed.

Lemma image_request_is_forwarded_witness :
  exists size prompt,
    get (JObj [ ("model", JStr "websim-image");
                ("prompt", JStr "a lighthouse at dusk");
                ("size", JStr "1792x1024") ]) "size" = Ok size /\
    get (JObj [ ("model", JStr "websim-image");
                ("prompt", JStr "a lighthouse at dusk");
                ("size", JStr "1792x1024") ]) "prompt" = Ok prompt /\
    upstream_calls
      (snd (Main.handler no_env (image_request "1792x1024") (stubbed 0 1 picture) start)) =
      [ Fetch WEBSIM_IMAGE_API_URL
          (JSON_stringify
             (image_payload (Main.WEBSIM_IMAGE_PROJECT_ID no_env) prompt size)) ] /\
    (size = JStr "1792x1024" -> aspect_ratio_of size = "16:9") /\
    (size = JStr "1024x1792" -> aspect_ratio_of size = "9:16") /\
    (size <> JStr "1792x1024" -> size <> JStr "1024x1792" -> aspect_ratio_of size = "1:1").
Proof.
  refine (image_request_is_forwarded no_env (stubbed 0 1 picture)
            (image_request "1792x1024") _ (JStr "websim-image")
            _ eq_refl (no_key_granted _) eq_refl eq_refl eq_refl).
  simpl; discriminate.
Defined.

(** The three sizes of the table and one outside it, run end to end. *)
Lemma image_sizes_forwarded :
  map (fun size =>
         upstream_calls
           (snd (Main.handler no_env (image_request size) (stubbed 0 1 picture) start)))
      [ "1792x1024"; "1024x1792"; "1024x1024"; "512x512" ]
  = map (fun ratio =>
           [ Fetch WEBSIM_IMAGE_API_URL
               (JSON_stringify
                  (JObj [ ("project_id", JStr "7s1bwhja5y2paq235t93");
                          ("prompt", JStr "a lighthouse at dusk");
                          ("aspect_ratio", JStr ratio) ])) ])
        [ "16:9"; "9:16"; "1:1"; "1:1" ].
Proof. vm_compute. reflexivity. Qed.

(* ================================================================== *)
(** * What the router reads of a request *)
(* ================================================================== *)

Ltac enter_route Hm G Hp :=
  rewrite ?(eqb_false_of_neq _ _ Hm), ?(granted_passes _ _ G), ?Hp;
  cbn [String.eqb Ascii.eqb Bool.eqb].

Ltac open_handlers :=
  unfold Main.handler, Main.handleChatCompletions, Main.handleImageGeneration,
    Main.internal_error, Main.handleModels,
    Part000.handler, Part000.handleChatCompletions, Part000.emulated_stream,
    Part000.handleModels,
    Part001.handler, Part001.handleChatCompletions, Part001.handleModels, preflight;
  cbn [Object_keys Main.MODEL_MAPPING Part000.MODEL_MAPPING Part001.MODEL_MAPPING
       map fst mapM];
  monad.



(** A GET on the chat route, which has no body, gets the answer of a
    body that does not parse, not a 405. *)
Example bodyless_get_on_the_chat_route :
  fst (Part000.handler no_env bodyless_get (stubbed 0 1 hello) start) =
    Ok {| status := 400; headers := [ ("Access-Control-Allow-Origin", "*") ];
          response_body := BodyText "Invalid JSON body" |} /\
  fst (Part001.handler no_env bodyless_get (stubbed 0 1 hello) start) =
    Ok {| status := 400; headers := []; response_body := BodyText "Invalid JSON body" |} /\
  fst (Main.handler no_env bodyless_get (stubbed 0 1 hello) start) =
    Ok (internal_error_main "Unexpected end of JSON input").
Proof. repeat split. Qed.

(** X2.  When [API_KEY] is unset or empty, the Authorization header is
    not read: a request is handled the same way whatever it carries
    there. *)
Theorem authorization_unread_without_key
    (env : Env) (w : World) (st : State) (req : Request) (a : option string) :
  env "API_KEY" = None \/ env "API_KEY" = Some "" ->
  Main.handler env (with_authorization req a) w st = Main.handler env req w st /\
  Part000.handler env (with_authorization req a) w st = Part000.handler env req w st /\
  Part001.handler env (with_authorization req a) w st = Part001.handler env req w st.
Proof.
  intros H.
  assert (Hk : configured (env "API_KEY") = None) by (destruct H as [-> | ->]; reflexivity).
  destruct req as [m0 p a0 b].
  unfold Main.handler, Part000.handler, Part001.handler, with_authorization.
  unfold Main.unauthorized, Main.AUTHORIZATION_KEY.
  unfold Part000.handleChatCompletions, Part001.handleChatCompletions.
  unfold Part000.unauthorized, Part000.AUTHORIZATION_KEY.
  unfold Part001.unauthorized, Part001.AUTHORIZATION_KEY.
  rewrite Hk.
  repeat split; reflexivity.
Qed.

Lemma authorization_unread_without_key_witness :
  Part000.handler no_env (with_authorization plain_request (Some "Bearer anything"))
    (stubbed 0 1 hello) start =
  Part000.handler no_env plain_request (stubbed 0 1 hello) start.
Proof.
  exact (proj1 (proj2 (authorization_unread_without_key no_env (stubbed 0 1 hello) start
                         plain_request (Some "Bearer anything") (or_introl eq_refl)))).
Defined.

(** X3.  A request that presents the configured token is handled exactly
    as it would be with no token configured: the check lets it through
    and leaves no other mark on the run. *)
Theorem right_token_is_transparent
    (env : Env) (w : World) (st : State) (req : Request) (key : string) :
  configured (env "API_KEY") = Some key ->
  presents req key ->
  Main.handler env req w st = Main.handler (without_key env) req w st /\
  Part000.handler env req w st = Part000.handler (without_key env) req w st /\
  Part001.handler env req w st = Part001.handler (without_key env) req w st.
Proof.
  intros Hk Hp.
  assert (Hpass : rejected (authorization req) key = false).
  { apply not_true_is_false. intro H. apply rejected_iff in H. now apply H. }
  unfold Main.handler, Part000.handler, Part001.handler.
  unfold Part000.handleChatCompletions, Part001.handleChatCompletions.
  unfold Main.unauthorized, Main.AUTHORIZATION_KEY.
  unfold Part000.unauthorized, Part000.AUTHORIZATION_KEY.
  unfold Part001.unauthorized, Part001.AUTHORIZATION_KEY.
  rewrite Hk, Hpass. repeat split; reflexivity.
Qed.

Lemma right_token_is_transparent_witness :
  Main.handler env_with_key right_token_request (stubbed 0 1 hello) start =
  Main.handler (without_key env_with_key) right_token_request (stubbed 0 1 hello) start.
Proof.
  exact (proj1 (right_token_is_transparent env_with_key (stubbed 0 1 hello) start
                  right_token_request "secret" eq_refl eq_refl)).
Defined.

(** X4.  A request (not OPTIONS) for a path that is no route is answered
    404 "Not Found" with no effect at all: with the CORS header in
    [part_000], without headers in [part_001] and, once past the token
    check, in [main.ts].  [/v1/images/generations] is such a path in
    [part_000] and [part_001]. *)
Theorem unmatched_path_is_404 (env : Env) (w : World) (st : State) (req : Request) :
  method req <> "OPTIONS" ->
  pathname req <> "/v1/models" ->
  pathname req <> "/v1/chat/completions" ->
  (pathname req <> "/v1/images/generations" -> granted env req ->
   Main.handler env req w st = (Ok (plain_404 []), st)) /\
  Part000.handler env req w st =
    (Ok (plain_404 [ ("Access-Control-Allow-Origin", "*") ]), st) /\
  Part001.handler env req w st = (Ok (plain_404 []), st).
Proof.
  intros Hm H1 H2. repeat split.
  - intros H3 G. unfold Main.handler, Main.unauthorized, Main.AUTHORIZATION_KEY.
    rewrite (eqb_false_of_neq _ _ Hm), (granted_passes env req G),
      (eqb_false_of_neq _ _ H1), (eqb_false_of_neq _ _ H2), (eqb_false_of_neq _ _ H3).
    reflexivity.
  - unfold Part000.handler.
    rewrite (eqb_false_of_neq _ _ Hm), (eqb_false_of_neq _ _ H1), (eqb_false_of_neq _ _ H2).
    reflexivity.
  - unfold Part001.handler.
    rewrite (eqb_false_of_neq _ _ Hm), (eqb_false_of_neq _ _ H1), (eqb_false_of_neq _ _ H2).
    reflexivity.
Qed.

Lemma unmatched_path_is_404_witness :
  Part000.handler env_with_key (image_request "1024x1024") (stubbed 0 1 picture) start =
    (Ok (plain_404 [ ("Access-Control-Allow-Origin", "*") ]), start).
Proof.
  refine (proj1 (proj2 (unmatched_path_is_404 env_with_key (stubbed 0 1 picture) start
                          (image_request "1024x1024") _ _ _))); simpl; discriminate.
Defined.

(* ================================================================== *)
(** * Bodies that do not parse, or parse to something else *)
(* ================================================================== *)

(** X5.  A body that is not JSON: [part_000] and [part_001] answer 400
    "Invalid JSON body"; [main.ts] has no such answer, its [catch] turns
    the parse error into a 500 that carries the error's message, on the
    chat and on the image route.  In each case the body has been read once
    and the upstream has not been called. *)
Theorem unparsable_body (env : Env) (w : World) (req : Request) (e : Error) :
  method req <> "OPTIONS" ->
  granted env req ->
  body req = Throw e ->
  (pathname req = "/v1/chat/completions" \/ pathname req = "/v1/images/generations" ->
   exists st,
     Main.handler env req w start =
       (Ok (internal_error_main (message_or_default e)), st)
     /\ body_reads st = 1%nat /\ upstream_calls st = []) /\
  (pathname req = "/v1/chat/completions" ->
   exists st,
     Part000.handler env req w start =
       (Ok {| status := 400; headers := [ ("Access-Control-Allow-Origin", "*") ];
              response_body := BodyText "Invalid JSON body" |}, st)
     /\ body_reads st = 1%nat /\ upstream_calls st = []) /\
  (pathname req = "/v1/chat/completions" ->
   exists st,
     Part001.handler env req w start =
       (Ok {| status := 400; headers := [];
              response_body := BodyText "Invalid JSON body" |}, st)
     /\ body_reads st = 1%nat /\ upstream_calls st = []).
Proof.
  intros Hm G Hb. repeat split.
  - intros [Hp|Hp];
      unfold Main.handler, Main.unauthorized, Main.AUTHORIZATION_KEY;
      enter_route Hm G Hp;
      unfold Main.handleChatCompletions, Main.handleImageGeneration, Main.internal_error;
      monad; rewrite Hb; eexists; repeat split.
  - intros Hp. unfold Part000.handler, Part000.handleChatCompletions,
      Part000.unauthorized, Part000.AUTHORIZATION_KEY.
    enter_route Hm G Hp. monad. rewrite Hb. eexists; repeat split.
  - intros Hp. unfold Part001.handler, Part001.handleChatCompletions,
      Part001.unauthorized, Part001.AUTHORIZATION_KEY.
    enter_route Hm G Hp. monad. rewrite Hb. eexists; repeat split.
Qed.

Lemma unparsable_body_witness :
  exists st,
    Main.handler no_env garbled_request (stubbed 0 1 hello) start =
      (Ok (internal_error_main "Unexpected token"), st)
    /\ body_reads st = 1%nat /\ upstream_calls st = [].
Proof.
  refine (proj1 (unparsable_body no_env (stubbed 0 1 hello) garbled_request
                   (SyntaxError "Unexpected token") _ (no_key_granted _) eq_refl)
            (or_introl eq_refl)).
  simpl; discriminate.
Defined.

(** X6.  A body that parses but has no [model] (an object without that
    key, or a number, string or array): the lookup is made under the key
    "undefined", finds nothing, and the request is answered 404 naming the
    model "undefined", without an upstream call. *)
Theorem missing_model_is_404 (env : Env) (w : World) (req : Request) (openaiRequest : jsval) :
  method req <> "OPTIONS" ->
  granted env req ->
  body req = Ok openaiRequest ->
  get openaiRequest "model" = Ok JUndefined ->
  (pathname req = "/v1/chat/completions" ->
   exists st,
     Main.handler env req w start =
       (Ok {| status := 404; headers := [];
              response_body :=
                BodyText (JSON_stringify (not_found "Chat model not found: " "undefined")) |},
        st) /\ upstream_calls st = []) /\
  (pathname req = "/v1/images/generations" ->
   exists st,
     Main.handler env req w start =
       (Ok {| status := 404; headers := [];
              response_body :=
                BodyText (JSON_stringify (not_found "Image model not found: " "undefined")) |},
        st) /\ upstream_calls st = []) /\
  (pathname req = "/v1/chat/completions" ->
   exists st,
     Part000.handler env req w start =
       (Ok {| status := 404;
              headers := [ ("Access-Control-Allow-Origin", "*");
                           ("Content-Type", "application/json") ];
              response_body :=
                BodyText (JSON_stringify (not_found "Model not found: " "undefined")) |},
        st) /\ upstream_calls st = []) /\
  (pathname req = "/v1/chat/completions" ->
   exists st,
     Part001.handler env req w start =
       (Ok {| status := 404; headers := [];
              response_body :=
                BodyText (JSON_stringify (not_found "Model not found: " "undefined")) |},
        st) /\ upstream_calls st = []).
Proof.
  intros Hm G Hb Hmodel. repeat split; intros Hp.
  - unfold Main.handler, Main.unauthorized, Main.AUTHORIZATION_KEY. enter_route Hm G Hp.
    unfold Main.handleChatCompletions, index. monad. rewrite Hb, Hmodel.
    eexists. split; reflexivity.
  - unfold Main.handler, Main.unauthorized, Main.AUTHORIZATION_KEY. enter_route Hm G Hp.
    unfold Main.handleImageGeneration, index. monad. rewrite Hb, Hmodel.
    eexists. split; reflexivity.
  - unfold Part000.handler, Part000.handleChatCompletions,
      Part000.unauthorized, Part000.AUTHORIZATION_KEY, index. enter_route Hm G Hp.
    monad. rewrite Hb, Hmodel. eexists. split; reflexivity.
  - unfold Part001.handler, Part001.handleChatCompletions,
      Part001.unauthorized, Part001.AUTHORIZATION_KEY, index. enter_route Hm G Hp.
    monad. rewrite Hb, Hmodel. eexists. split; reflexivity.
Qed.

Lemma missing_model_is_404_witness :
  exists st,
    Part001.handler no_env no_model_request (stubbed 0 1 hello) start =
      (Ok {| status := 404; headers := [];
             response_body :=
               BodyText (JSON_stringify (not_found "Model not found: " "undefined")) |},
       st) /\ upstream_calls st = [].
Proof.
  refine (proj2 (proj2 (proj2
            (missing_model_is_404 no_env (stubbed 0 1 hello) no_model_request
               (JObj [ ("messages", JArr []) ]) _ (no_key_granted _) eq_refl eq_refl)))
            eq_refl).
  simpl; discriminate.
Defined.

(** X7.  A body that parses to [null]: reading [model] off it throws a
    [TypeError].  [main.ts] answers 500 with the error's message,
    [part_000] answers its router's 500, and [part_001], which reads the
    model outside of any [try], lets the error leave the handler. *)
Theorem null_body (env : Env) (w : World) (req : Request) :
  method req <> "OPTIONS" ->
  pathname req = "/v1/chat/completions" ->
  granted env req ->
  body req = Ok JNull ->
  (exists st,
     Main.handler env req w start =
       (Ok (internal_error_main (message (cannot_read "null" "model"))), st)) /\
  (exists st, Part000.handler env req w start = (Ok internal_error_v2, st)) /\
  (exists st,
     Part001.handler env req w start = (Throw (cannot_read "null" "model"), st)).
Proof.
  intros Hm Hp G Hb. repeat split.
  - unfold Main.handler, Main.unauthorized, Main.AUTHORIZATION_KEY. enter_route Hm G Hp.
    unfold Main.handleChatCompletions, Main.internal_error, index. monad. rewrite Hb.
    eexists. reflexivity.
  - unfold Part000.handler, Part000.handleChatCompletions,
      Part000.unauthorized, Part000.AUTHORIZATION_KEY, index. enter_route Hm G Hp.
    monad. rewrite Hb. eexists. reflexivity.
  - unfold Part001.handler, Part001.handleChatCompletions,
      Part001.unauthorized, Part001.AUTHORIZATION_KEY, index. enter_route Hm G Hp.
    monad. rewrite Hb. eexists. reflexivity.
Qed.

Lemma null_body_witness :
  exists st, Part000.handler no_env null_request (stubbed 0 1 hello) start
             = (Ok internal_error_v2, st).
Proof.
  refine (proj1 (proj2 (null_body no_env (stubbed 0 1 hello) null_request
                          _ eq_refl (no_key_granted _) eq_refl))).
  simpl; discriminate.
Defined.

(* ================================================================== *)
(** * Errors that stay inside, and the one that does not *)
(* ================================================================== *)

(** X8.  No error leaves the handlers of [main.ts] and [part_000]:
    whatever the environment, the request, the clock and the upstream,
    they end in a response. *)
Theorem no_exception_escapes (env : Env) (w : World) (req : Request) :
  (exists resp, fst (Main.handler env req w start) = Ok resp) /\
  (exists resp, fst (Part000.handler env req w start) = Ok resp).
Proof.
  split.
  - apply Main_always_answers.
  - pose proof (Part000_readable_by_browsers env w req) as H.
    unfold readable_by_browsers in H.
    destruct (fst (Part000.handler env req w start)) as [resp|e]; [|contradiction].
    now exists resp.
Qed.

(** X9.  An error leaves the handler of [part_001] only in one place:
    after the body has been parsed, when [model] cannot be read off it
    (the body is [null]) or cannot be turned into a property key; no
    upstream call has been made by then.  Everything after the lookup is
    inside its [try]. *)
Theorem part001_escapes_only_at_model (env : Env) (w : World) (req : Request) :
  escapes_only_at_model req (Part001.handler env req w start).
Proof.
  unfold escapes_only_at_model. open_handlers. unfold index. walk idtac.
  all: try exact I.
  all: split; [reflexivity|]; eexists; split; [reflexivity|].
  all: eauto.
  - match goal with
    | H : get _ "model" = Ok _ |- _ =>
        destruct (get_defined _ _ _ "messages" H) as [y Hy]
    end.
    congruence.
  - exfalso.
    match goal with
    | H : get (Part001.MODEL_MAPPING _) ?k = Throw _ |- _ =>
        revert H; unfold Part001.MODEL_MAPPING, get;
        destruct (own_property _ k); discriminate
    end.
Qed.

(* ================================================================== *)
(** * What goes to the upstream *)
(* ================================================================== *)

(** X10.  A chat request that is past the token check and names the chat
    model makes exactly one upstream call, to the chat URL, with the body
    [{project_id, messages}] and nothing else of the request
    ([temperature], [stream], ... are dropped); [project_id] is the value
    of the environment variable when it is set and not empty, and the
    built-in identifier otherwise. *)
Theorem chat_request_is_forwarded
    (env : Env) (w : World) (req : Request) (openaiRequest modelId : jsval) :
  method req <> "OPTIONS" ->
  pathname req = "/v1/chat/completions" ->
  granted env req ->
  body req = Ok openaiRequest ->
  get openaiRequest "model" = Ok modelId ->
  ToString modelId = Ok "websim-chat" ->
  exists messages,
    get openaiRequest "messages" = Ok messages /\
    upstream_calls (snd (Main.handler env req w start)) =
      [ Fetch WEBSIM_CHAT_API_URL
          (JSON_stringify
             (chat_payload
                (or_default (env "WEBSIM_CHAT_PROJECT_ID") "8n26qj27l_9v7_8fxk9i")
                messages)) ] /\
    upstream_calls (snd (Part000.handler env req w start)) =
      [ Fetch WEBSIM_CHAT_API_URL
          (JSON_stringify
             (chat_payload
                (or_default (env "WEBSIM_PROJECT_ID") "8n26qj27l_9v7_8fxk9i")
                messages)) ] /\
    upstream_calls (snd (Part001.handler env req w start)) =
      [ Fetch WEBSIM_CHAT_API_URL
          (JSON_stringify
             (chat_payload
                (or_default (env "WEBSIM_PROJECT_ID") "8n26qj27l_9v7_8fxk9i")
                messages)) ].
Proof.
  intros Hm Hp G Hb Hmodel Hk.
  destruct (get_defined _ _ _ "messages" Hmodel) as [messages Hmsg].
  destruct (get_defined _ _ _ "stream" Hmodel) as [stream Hstream].
  exists messages. split; [assumption|]. repeat split.
  - unfold Main.handler, Main.unauthorized, Main.AUTHORIZATION_KEY. enter_route Hm G Hp.
    unfold Main.handleChatCompletions, Main.internal_error, index, chat_payload. monad.
    rewrite Hb, Hmodel, Hk. cbn -[JSON_stringify WEBSIM_CHAT_API_URL Z.div].
    rewrite Hmsg. cbn -[JSON_stringify WEBSIM_CHAT_API_URL Z.div].
    unfold ret, throw. walk ltac:(unfold ret, throw). all: reflexivity.
  - unfold Part000.handler, Part000.handleChatCompletions, Part000.emulated_stream,
      Part000.unauthorized, Part000.AUTHORIZATION_KEY, index, chat_payload.
    enter_route Hm G Hp. monad.
    rewrite Hb, Hmodel, Hk. cbn -[JSON_stringify WEBSIM_CHAT_API_URL Z.div].
    unfold Part000.WEBSIM_PROJECT_ID. rewrite or_default_truthy.
    cbn -[JSON_stringify WEBSIM_CHAT_API_URL Z.div].
    rewrite Hmsg. cbn -[JSON_stringify WEBSIM_CHAT_API_URL Z.div].
    unfold ret, throw. walk ltac:(unfold ret, throw; rewrite ?Hstream). all: reflexivity.
  - unfold Part001.handler, Part001.handleChatCompletions,
      Part001.unauthorized, Part001.AUTHORIZATION_KEY, index, chat_payload.
    enter_route Hm G Hp. monad.
    rewrite Hb, Hmodel, Hk. cbn -[JSON_stringify WEBSIM_CHAT_API_URL Z.div].
    unfold Part001.WEBSIM_PROJECT_ID. rewrite or_default_truthy.
    cbn -[JSON_stringify WEBSIM_CHAT_API_URL Z.div].
    rewrite Hmsg. cbn -[JSON_stringify WEBSIM_CHAT_API_URL Z.div].
    unfold ret, throw. walk ltac:(unfold ret, throw). all: reflexivity.
Qed.

Lemma chat_request_is_forwarded_witness :
  exists messages,
    get (chat_request "websim-chat" [ ("stream", JBool false) ]) "messages" = Ok messages /\
    upstream_calls (snd (Main.handler no_env plain_request (stubbed 0 1 hello) start)) =
      [ Fetch WEBSIM_CHAT_API_URL
          (JSON_stringify (chat_payload "8n26qj27l_9v7_8fxk9i" messages)) ] /\
    upstream_calls (snd (Part000.handler no_env plain_request (stubbed 0 1 hello) start)) =
      [ Fetch WEBSIM_CHAT_API_URL
          (JSON_stringify (chat_payload "8n26qj27l_9v7_8fxk9i" messages)) ] /\
    upstream_calls (snd (Part001.handler no_env plain_request (stubbed 0 1 hello) start)) =
      [ Fetch WEBSIM_CHAT_API_URL
          (JSON_stringify (chat_payload "8n26qj27l_9v7_8fxk9i" messages)) ].
Proof.
  refine (chat_request_is_forwarded no_env (stubbed 0 1 hello) plain_request
            (chat_request "websim-chat" [ ("stream", JBool false) ]) (JStr "websim-chat")
            _ eq_refl (no_key_granted _) eq_refl eq_refl eq_refl).
  simpl; discriminate.
Defined.

Lemma Main_entry_url env m c kind url :
  index (Main.MODEL_MAPPING env) m = Ok c ->
  Main.wrong_modality c kind = Ok false ->
  get c "apiUrl" = Ok url ->
  url = JStr WEBSIM_CHAT_API_URL \/ url = JStr WEBSIM_IMAGE_API_URL.
Proof.
  unfold index. destruct (ToString m) as [k|]; [|discriminate].
  cbn [get Main.MODEL_MAPPING own_property].
  destruct ("websim-chat" =? k)%string.
  - intros [= <-] _. cbn. intros [= <-]. now left.
  - destruct ("websim-image" =? k)%string.
    + intros [= <-] _. cbn. intros [= <-]. now right.
    + destruct (has_name Object_prototype k); intros [= <-]; cbn; discriminate.
Qed.

Lemma known_url_sound url :
  known_url url = true -> url = WEBSIM_CHAT_API_URL \/ url = WEBSIM_IMAGE_API_URL.
Proof.
  unfold known_url. intros [H|H]%orb_true_iff; apply String.eqb_eq in H; auto.
Qed.

Lemma in_order_sound t : forall read called,
  in_order read called t = true ->
  (length (filter is_read_body t) + (if read then 1 else 0) <= 1)%nat /\
  (length (filter is_fetch t) + (if called then 1 else 0) <= 1)%nat /\
  forall before url b after,
    t = (before ++ Fetch url b :: after)%list ->
    (read = true \/ In ReadBody before) /\
    (url = WEBSIM_CHAT_API_URL \/ url = WEBSIM_IMAGE_API_URL).
Proof.
  induction t as [|e t IH]; intros read called H.
  - split; [destruct read; simpl; lia|]. split; [destruct called; simpl; lia|].
    intros before url b after E. destruct before; discriminate E.
  - destruct e as [|url body|]; cbn [in_order] in H.
    + apply andb_true_iff in H as [Hr H]. apply negb_true_iff in Hr. subst read.
      destruct (IH true called H) as (H1 & H2 & H3).
      cbn [filter is_read_body is_fetch length] in *.
      split; [lia|]. split; [lia|].
      intros before url b after E.
      destruct before as [|x before]; [discriminate E|].
      injection E as <- ->. split.
      * right. now left.
      * exact (proj2 (H3 _ _ _ _ eq_refl)).
    + apply andb_true_iff in H as [H Ht]. apply andb_true_iff in H as [H Hu].
      apply andb_true_iff in H as [Hr Hc]. apply negb_true_iff in Hc. subst read called.
      destruct (IH true true Ht) as (H1 & H2 & H3).
      cbn [filter is_read_body is_fetch length] in *.
      split; [lia|]. split; [lia|].
      intros before url' b after E. split; [now left|].
      destruct before as [|x before].
      * injection E as <- _ _. now apply known_url_sound.
      * injection E as _ ->. exact (proj2 (H3 _ _ _ _ eq_refl)).
    + destruct (IH read called H) as (H1 & H2 & H3).
      cbn [filter is_read_body is_fetch length] in *.
      split; [lia|]. split; [lia|].
      intros before url b after E.
      destruct before as [|x before]; [discriminate E|].
      injection E as <- ->. split.
      * destruct (proj1 (H3 _ _ _ _ eq_refl)); [now left|]. right. now right.
      * exact (proj2 (H3 _ _ _ _ eq_refl)).
Qed.

Lemma in_order_disciplined st :
  in_order false false (trace st) = true -> disciplined st.
Proof.
  intro H. destruct (in_order_sound _ _ _ H) as (H1 & H2 & H3).
  unfold disciplined, body_reads, upstream_calls.
  split; [lia|]. split; [lia|].
  intros before url b after E. split.
  - destruct (proj1 (H3 _ _ _ _ E)); [discriminate | assumption].
  - exact (proj2 (H3 _ _ _ _ E)).
Qed.

(** A call that comes before the read is not in order. *)
Example call_before_read_is_refused :
  in_order false false [ Fetch WEBSIM_CHAT_API_URL "{}"; ReadBody ] = false /\
  ~ disciplined {| clock_reads := 0; uuids_drawn := 0;
                   trace := [ Fetch WEBSIM_CHAT_API_URL "{}"; ReadBody ] |}.
Proof.
  split; [reflexivity|]. intros (_ & _ & H).
  destruct (H [] WEBSIM_CHAT_API_URL "{}" [ReadBody] eq_refl) as [[] _].
Qed.

Ltac in_order_holds :=
  cbn [trace start app in_order negb andb];
  try match goal with
      | Hi : index (Main.MODEL_MAPPING _) _ = Ok ?c,
        Hw : Main.wrong_modality ?c _ = Ok false,
        Hu : get ?c "apiUrl" = Ok ?u, Hs : ToString ?u = Ok _ |- _ =>
          destruct (Main_entry_url _ _ _ _ _ Hi Hw Hu) as [-> | ->];
          cbn in Hs; injection Hs as <-
      end;
  reflexivity.

(** X11.  Whatever the request, a run reads the body at most once and
    calls the upstream at most once; every upstream call stands in the
    trace after the read of the body, never before it, and goes to one of
    the two websim endpoints: no retry, no second attempt, no call before
    the body has been parsed. *)
Theorem runs_are_disciplined (env : Env) (w : World) (req : Request) :
  disciplined (snd (Main.handler env req w start)) /\
  disciplined (snd (Part000.handler env req w start)) /\
  disciplined (snd (Part001.handler env req w start)).
Proof.
  split; [|split]; apply in_order_disciplined.
  - open_handlers. walk idtac. all: in_order_holds.
  - open_handlers. walk idtac. all: in_order_holds.
  - open_handlers. walk idtac. all: in_order_holds.
Qed.

(* ================================================================== *)
(** * What comes back from the upstream *)
(* ================================================================== *)

Ltac answered :=
  intros _; eexists; split; [reflexivity|];
  unfold internal_error_main, message_or_default;
  repeat match goal with
         | H : (message _ =? "")%string = _ |- _ => rewrite H; clear H
         end;
  try reflexivity.

Ltac status_500 := intros _; eexists; split; reflexivity.

(** X12.  When [fetch] itself fails (the upstream cannot be reached), the
    three scripts answer 500 and none lets the error out: [main.ts] with
    the error's message, [part_000] through its router's [catch],
    [part_001] through the [catch] around its call. *)
Theorem network_failure_is_500 (env : Env) (w : World) (req : Request) (e : Error) :
  (forall url b, upstream w url b = Throw e) ->
  after_upstream_call (fun resp => resp = internal_error_main (message_or_default e))
    (Main.handler env req w start) /\
  after_upstream_call (fun resp => resp = internal_error_v2)
    (Part000.handler env req w start) /\
  after_upstream_call (fun resp => resp = internal_error_v1)
    (Part001.handler env req w start).
Proof.
  intros Hup. unfold after_upstream_call. repeat split.
  - open_handlers. walk ltac:(rewrite ?Hup).
    all: try no_upstream_call.
    all: answered.
  - open_handlers. walk ltac:(rewrite ?Hup).
    all: try no_upstream_call.
    all: answered.
  - open_handlers. walk ltac:(rewrite ?Hup).
    all: try no_upstream_call.
    all: answered.
Qed.

Lemma network_failure_is_500_witness :
  upstream_calls (snd (Part001.handler no_env plain_request offline start)) <> [] /\
  after_upstream_call (fun resp => resp = internal_error_v1)
    (Part001.handler no_env plain_request offline start).
Proof.
  split; [discriminate|].
  exact (proj2 (proj2 (network_failure_is_500 no_env offline plain_request
                         connection_refused (fun _ _ => eq_refl)))).
Defined.

(** X13.  A 2xx reply is turned into a completion only if its JSON has a
    string [content]: when it has not (the body is not JSON, is [null], or
    [content] is a number, an object, ...), [main.ts] and [part_001] answer
    500, and so does [part_000] unless [content] is absent or null. *)
Theorem completion_needs_string_content
    (env : Env) (w : World) (req : Request) (r : Reply) :
  pathname req = "/v1/chat/completions" ->
  (forall url b, upstream w url b = Ok r) ->
  reply_ok r = true ->
  (forall v s, reply_json r = Ok v -> get v "content" <> Ok (JStr s)) ->
  after_upstream_call (fun resp => status resp = 500) (Main.handler env req w start) /\
  after_upstream_call (fun resp => status resp = 500) (Part001.handler env req w start) /\
  ((forall v, reply_json r = Ok v ->
              get v "content" <> Ok JUndefined /\ get v "content" <> Ok JNull) ->
   after_upstream_call (fun resp => status resp = 500) (Part000.handler env req w start)).
Proof.
  intros Hp Hup Hok Hbad. unfold after_upstream_call.
  assert (Hstr : forall v raw c, reply_json r = Ok v -> get v "content" = Ok raw ->
                                 call_trim "websimResponse.content" raw = Ok c -> False).
  { intros v raw c Hj Hc Ht. destruct raw; try discriminate Ht.
    exact (Hbad v s Hj Hc). }
  repeat split.
  - open_handlers. rewrite Hp. cbn [String.eqb Ascii.eqb Bool.eqb].
    walk ltac:(rewrite ?Hup, ?Hok).
    all: try no_upstream_call.
    all: try (exfalso; eapply Hstr; first [reflexivity | eassumption]).
    all: status_500.
  - open_handlers. rewrite Hp. cbn [String.eqb Ascii.eqb Bool.eqb].
    walk ltac:(rewrite ?Hup, ?Hok).
    all: try no_upstream_call.
    all: try (exfalso; eapply Hstr; first [reflexivity | eassumption]).
    all: status_500.
  - intros Hpresent. open_handlers. rewrite Hp. cbn [String.eqb Ascii.eqb Bool.eqb].
    walk ltac:(rewrite ?Hup, ?Hok).
    all: try no_upstream_call.
    all: try (exfalso;
              match goal with
              | Hc : get ?v "content" = Ok ?raw,
                Ht : Part000.trimmed_content ?raw = Ok _ |- _ =>
                  destruct raw; try discriminate Ht;
                  [ exact (proj1 (Hpresent v eq_refl) Hc)
                  | exact (proj2 (Hpresent v eq_refl) Hc)
                  | exact (Hbad v _ eq_refl Hc) ]
              end).
    all: status_500.
Qed.

Lemma numeric_content_is_no_string v s :
  reply_json numeric_content = Ok v -> get v "content" <> Ok (JStr s).
Proof. intros [= <-]. discriminate. Qed.

Lemma numeric_content_is_present v :
  reply_json numeric_content = Ok v ->
  get v "content" <> Ok JUndefined /\ get v "content" <> Ok JNull.
Proof. intros [= <-]. split; discriminate. Qed.

Lemma completion_needs_string_content_witness :
  upstream_calls (snd (Part000.handler no_env plain_request (stubbed 0 1 numeric_content) start))
    <> [] /\
  after_upstream_call (fun resp => status resp = 500)
    (Part000.handler no_env plain_request (stubbed 0 1 numeric_content) start).
Proof.
  split; [discriminate|].
  exact (proj2 (proj2 (completion_needs_string_content no_env
                         (stubbed 0 1 numeric_content) plain_request numeric_content
                         eq_refl (fun _ _ => eq_refl) eq_refl
                         numeric_content_is_no_string))
           numeric_content_is_present).
Defined.

(** X14.  An upstream failure whose body can be read: [part_000] and
    [part_001] answer with the upstream's own status and the text
    "Upstream API error: <statusText>" exactly when [Response] accepts that
    status with a body (300..599 except 304), and with their 500 otherwise;
    [main.ts] answers 500 with the message "Upstream API error: <status>"
    in every case. *)
Theorem upstream_status_passed_on
    (env : Env) (w : World) (req : Request) (r : Reply) (text : string) :
  (forall url b, upstream w url b = Ok r) ->
  reply_ok r = false ->
  reply_text r = Ok text ->
  (300 <= reply_status r <= 599 -> reply_status r <> 304 ->
   after_upstream_call
     (fun resp => resp = upstream_error_text r [ ("Access-Control-Allow-Origin", "*") ])
     (Part000.handler env req w start) /\
   after_upstream_call (fun resp => resp = upstream_error_text r [])
     (Part001.handler env req w start)) /\
  (reply_status r < 200 \/ 599 < reply_status r \/ reply_status r = 304 ->
   after_upstream_call (fun resp => resp = internal_error_v2)
     (Part000.handler env req w start) /\
   after_upstream_call (fun resp => resp = internal_error_v1)
     (Part001.handler env req w start)) /\
  after_upstream_call
    (fun resp => resp = internal_error_main
                          ("Upstream API error: " ++ string_of_Z (reply_status r)))
    (Main.handler env req w start).
Proof.
  intros Hup Hok Ht. unfold after_upstream_call.
  assert (Hacc : 300 <= reply_status r <= 599 -> reply_status r <> 304 ->
                 forall b h st,
                   new_Response (BodyText b) (reply_status r) h w st =
                     (Ok {| status := reply_status r; headers := h;
                            response_body := BodyText b |}, st)).
  { intros Hr H304 b h st. apply new_Response_ok.
    - unfold valid_status. apply orb_true_iff. right. apply andb_true_iff. lia.
    - unfold null_body_status.
      repeat (apply orb_false_iff; split); apply Z.eqb_neq; lia. }
  assert (Hrej : reply_status r < 200 \/ 599 < reply_status r \/ reply_status r = 304 ->
                 forall b h st, exists e,
                   new_Response (BodyText b) (reply_status r) h w st = (Throw e, st)).
  { intros Hr b h st. unfold new_Response.
    destruct (valid_status (reply_status r)) eqn:Hv; cbn [negb].
    - assert (Hn : null_body_status (reply_status r) = true).
      { unfold valid_status in Hv. unfold null_body_status.
        destruct (Z.eqb_spec (reply_status r) 101) as [->|]; [reflexivity|].
        destruct (Z.eqb_spec (reply_status r) 304) as [->|]; [reflexivity|].
        cbn [orb] in Hv. apply andb_true_iff in Hv. lia. }
      rewrite Hn. eexists. reflexivity.
    - eexists. reflexivity. }
  repeat split.
  - open_handlers.
    walk ltac:(rewrite ?Hup, ?Hok, ?Ht).
    all: try no_upstream_call.
    all: try (exfalso;
              match goal with
              | E : new_Response _ (reply_status _) _ _ _ = (Throw _, _) |- _ =>
                  rewrite (Hacc H H0) in E; discriminate E
              end).
    all: intros _; eexists; split; reflexivity.
  - open_handlers.
    walk ltac:(rewrite ?Hup, ?Hok, ?Ht).
    all: try no_upstream_call.
    all: try (exfalso;
              match goal with
              | E : new_Response _ (reply_status _) _ _ _ = (Throw _, _) |- _ =>
                  rewrite (Hacc H H0) in E; discriminate E
              end).
    all: intros _; eexists; split; reflexivity.
  - open_handlers.
    walk ltac:(rewrite ?Hup, ?Hok, ?Ht).
    all: try no_upstream_call.
    all: try (exfalso;
              match goal with
              | E : new_Response (BodyText ?b) (reply_status _) ?h _ ?st = (Ok _, _) |- _ =>
                  destruct (Hrej H b h st) as [e' He']; rewrite He' in E; discriminate E
              end).
    all: intros _; eexists; split; reflexivity.
  - open_handlers.
    walk ltac:(rewrite ?Hup, ?Hok, ?Ht).
    all: try no_upstream_call.
    all: try (exfalso;
              match goal with
              | E : new_Response (BodyText ?b) (reply_status _) ?h _ ?st = (Ok _, _) |- _ =>
                  destruct (Hrej H b h st) as [e' He']; rewrite He' in E; discriminate E
              end).
    all: intros _; eexists; split; reflexivity.
  - open_handlers.
    walk ltac:(rewrite ?Hup, ?Hok, ?Ht).
    all: try no_upstream_call.
    all: intros _; eexists; split; [reflexivity|]; unfold internal_error_main.
    all: first [ reflexivity
               | exfalso;
                 match goal with
                 | H : (message (Main.upstream_error _) =? "")%string = true |- _ =>
                     discriminate H
                 end ].
Qed.

Lemma upstream_status_passed_on_witness :
  upstream_calls (snd (Part001.handler no_env plain_request (stubbed 0 1 unavailable) start))
    <> [] /\
  after_upstream_call (fun resp => resp = upstream_error_text unavailable [])
    (Part001.handler no_env plain_request (stubbed 0 1 unavailable) start).
Proof.
  split; [discriminate|].
  refine (proj2 (proj1 (upstream_status_passed_on no_env (stubbed 0 1 unavailable)
                          plain_request unavailable "upstream unavailable"
                          (fun _ _ => eq_refl) eq_refl eq_refl) _ _)).
  - simpl. lia.
  - simpl. discriminate.
Defined.



(* ================================================================== *)
(** * The lookup of the model *)
(* ================================================================== *)

Lemma Main_unknown_image_model env w req openaiRequest m :
  method req <> "OPTIONS" ->
  pathname req = "/v1/images/generations" ->
  granted env req ->
  body req = Ok openaiRequest ->
  get openaiRequest "model" = Ok (JStr m) ->
  m <> "websim-image" ->
  Main.handler env req w start =
    (Ok {| status := 404; headers := [];
           response_body :=
             BodyText (JSON_stringify (not_found "Image model not found: " m)) |},
     {| clock_reads := 0; uuids_drawn := 0; trace := [ReadBody] |}).
Proof.
  intros Hm Hp G Hb Hmodel Hne.
  unfold Main.handler, Main.unauthorized, Main.AUTHORIZATION_KEY. enter_route Hm G Hp.
  unfold Main.handleImageGeneration, index. monad.
  rewrite Hb, Hmodel. cbn [ToString get Main.MODEL_MAPPING own_property].
  rewrite (eqb_false_of_neq _ _ (not_eq_sym Hne)).
  destruct ("websim-chat" =? m)%string; [reflexivity|].
  destruct (has_name Object_prototype m); reflexivity.
Qed.

(** X16.  [main.ts] keeps the two modalities apart: its chat route
    answers 404 for every model string other than "websim-chat", the image
    model included, and its image route answers 404 for every model string
    other than "websim-image", the chat model included; the answer names
    the model, and the upstream is not called. *)
Theorem modalities_are_kept_apart
    (env : Env) (w : World) (req : Request) (openaiRequest : jsval) (m : string) :
  method req <> "OPTIONS" ->
  granted env req ->
  body req = Ok openaiRequest ->
  get openaiRequest "model" = Ok (JStr m) ->
  (pathname req = "/v1/chat/completions" -> m <> "websim-chat" ->
   exists st,
     Main.handler env req w start =
       (Ok {| status := 404; headers := [];
              response_body :=
                BodyText (JSON_stringify (not_found "Chat model not found: " m)) |}, st)
     /\ upstream_calls st = []) /\
  (pathname req = "/v1/images/generations" -> m <> "websim-image" ->
   exists st,
     Main.handler env req w start =
       (Ok {| status := 404; headers := [];
              response_body :=
                BodyText (JSON_stringify (not_found "Image model not found: " m)) |}, st)
     /\ upstream_calls st = []).
Proof.
  intros Hm G Hb Hmodel. split; intros Hp Hne; eexists; split.
  - exact (Main_unknown_model env w req openaiRequest m Hm Hp G Hb Hmodel Hne).
  - reflexivity.
  - exact (Main_unknown_image_model env w req openaiRequest m Hm Hp G Hb Hmodel Hne).
  - reflexivity.
Qed.

Lemma modalities_are_kept_apart_witness :
  exists st,
    Main.handler no_env image_model_on_chat_request (stubbed 0 1 hello) start =
      (Ok {| status := 404; headers := [];
             response_body :=
               BodyText (JSON_stringify
                           (not_found "Chat model not found: " "websim-image")) |}, st)
    /\ upstream_calls st = [].
Proof.
  refine (proj1 (modalities_are_kept_apart no_env (stubbed 0 1 hello)
                   image_model_on_chat_request (chat_request "websim-image" [])
                   "websim-image" _ (no_key_granted _) eq_refl eq_refl) eq_refl _);
    simpl; discriminate.
Defined.

(** X17.  In [part_000] and [part_001], a model string that names a
    property of [Object.prototype] ([constructor], [toString],
    [valueOf], [hasOwnProperty], ...) passes the lookup: the request is
    forwarded to the chat URL, and since the "project id" found is a
    function, the forwarded body holds [messages] only. *)
Theorem inherited_names_pass_the_lookup
    (env : Env) (w : World) (req : Request) (openaiRequest : jsval) (m : string) :
  method req <> "OPTIONS" ->
  pathname req = "/v1/chat/completions" ->
  granted env req ->
  body req = Ok openaiRequest ->
  get openaiRequest "model" = Ok (JStr m) ->
  has_name Object_prototype m = true ->
  exists messages,
    get openaiRequest "messages" = Ok messages /\
    upstream_calls (snd (Part000.handler env req w start)) =
      [ Fetch WEBSIM_CHAT_API_URL (JSON_stringify (JObj [ ("messages", messages) ])) ] /\
    upstream_calls (snd (Part001.handler env req w start)) =
      [ Fetch WEBSIM_CHAT_API_URL (JSON_stringify (JObj [ ("messages", messages) ])) ].
Proof.
  intros Hm Hp G Hb Hmodel Hin.
  destruct (get_defined _ _ _ "messages" Hmodel) as [messages Hmsg].
  destruct (get_defined _ _ _ "stream" Hmodel) as [stream Hstream].
  assert (Hown : ("websim-chat" =? m)%string = false).
  { destruct (String.eqb_spec "websim-chat" m) as [<-|]; [discriminate Hin | reflexivity]. }
  assert (Hdrop : JSON_stringify (JObj [ ("project_id", JFunction m); ("messages", messages) ])
                  = JSON_stringify (JObj [ ("messages", messages) ])) by reflexivity.
  exists messages. split; [assumption|]. split.
  - unfold Part000.handler, Part000.handleChatCompletions, Part000.emulated_stream,
      Part000.unauthorized, Part000.AUTHORIZATION_KEY, index.
    enter_route Hm G Hp. monad.
    rewrite Hb, Hmodel. cbn [ToString get Part000.MODEL_MAPPING own_property].
    rewrite Hown, Hin. cbn -[JSON_stringify WEBSIM_CHAT_API_URL Z.div].
    rewrite Hmsg. cbn -[JSON_stringify WEBSIM_CHAT_API_URL Z.div].
    rewrite Hdrop.
    unfold ret, throw. walk ltac:(unfold ret, throw; rewrite ?Hstream). all: reflexivity.
  - unfold Part001.handler, Part001.handleChatCompletions,
      Part001.unauthorized, Part001.AUTHORIZATION_KEY, index.
    enter_route Hm G Hp. monad.
    rewrite Hb, Hmodel. cbn [ToString get Part001.MODEL_MAPPING own_property].
    rewrite Hown, Hin. cbn -[JSON_stringify WEBSIM_CHAT_API_URL Z.div].
    rewrite Hmsg. cbn -[JSON_stringify WEBSIM_CHAT_API_URL Z.div].
    rewrite Hdrop.
    unfold ret, throw. walk ltac:(unfold ret, throw). all: reflexivity.
Qed.

Lemma inherited_names_pass_the_lookup_witness :
  exists messages,
    get (JObj [ ("model", JStr "toString"); ("messages", JArr []) ]) "messages"
      = Ok messages /\
    upstream_calls (snd (Part000.handler no_env toString_request (stubbed 0 1 hello) start)) =
      [ Fetch WEBSIM_CHAT_API_URL (JSON_stringify (JObj [ ("messages", messages) ])) ] /\
    upstream_calls (snd (Part001.handler no_env toString_request (stubbed 0 1 hello) start)) =
      [ Fetch WEBSIM_CHAT_API_URL (JSON_stringify (JObj [ ("messages", messages) ])) ].
Proof.
  refine (inherited_names_pass_the_lookup no_env (stubbed 0 1 hello) toString_request
            (JObj [ ("model", JStr "toString"); ("messages", JArr []) ]) "toString"
            _ eq_refl (no_key_granted _) eq_refl eq_refl eq_refl).
  simpl; discriminate.
Defined.

(* ================================================================== *)
(** * The emulated stream *)
(* ================================================================== *)

Lemma is_true_false v : v <> JBool true -> is_true v = false.
Proof. destruct v as [| |[|]| | | | |]; try reflexivity. intro H. now elim H. Qed.

(** X18.  [part_000] streams only when [stream] is the boolean [true]:
    with any other value there (absent, [false], [null], the string
    "true", 1) a successful exchange is answered with the JSON
    [chat.completion]. *)
Theorem streams_only_on_true
    (env : Env) (w : World) (req : Request)
    (openaiRequest modelId websimResponse stream : jsval) (r : Reply) (c : string) :
  method req <> "OPTIONS" ->
  pathname req = "/v1/chat/completions" ->
  granted env req ->
  body req = Ok openaiRequest ->
  get openaiRequest "model" = Ok modelId ->
  ToString modelId = Ok "websim-chat" ->
  get openaiRequest "stream" = Ok stream ->
  stream <> JBool true ->
  (forall url b, upstream w url b = Ok r) ->
  reply_ok r = true ->
  reply_json r = Ok websimResponse ->
  get websimResponse "content" = Ok (JStr c) ->
  exists st,
    Part000.handler env req w start =
      (Ok (completion_response_v2 w modelId (trim c)), st).
Proof.
  intros Hm Hp G Hb Hmodel Hk Hs Hns Hup Hok Hj Hc.
  destruct (Part000_exchange env w req openaiRequest modelId websimResponse r
              Hm Hp G Hb Hmodel Hk Hup Hok Hj (JStr c) (trim c) stream
              Hc eq_refl Hs) as [st H].
  rewrite (is_true_false _ Hns) in H. now exists st.
Qed.

Lemma streams_only_on_true_witness :
  exists st,
    Part000.handler no_env quoted_true_request (stubbed 0 1 hello) start =
      (Ok (completion_response_v2 (stubbed 0 1 hello) (JStr "websim-chat") "Hello"), st).
Proof.
  refine (streams_only_on_true no_env (stubbed 0 1 hello) quoted_true_request
            (chat_request "websim-chat" [ ("stream", JStr "true") ])
            (JStr "websim-chat") (JObj [ ("content", JStr "  Hello  ") ])
            (JStr "true") hello "  Hello  "
            _ eq_refl (no_key_granted _) eq_refl eq_refl eq_refl eq_refl _
            (fun _ _ => eq_refl) eq_refl eq_refl eq_refl); simpl; discriminate.
Defined.

(** Induction on values, through the lists of elements and properties. *)
Lemma jsval_induction (P : jsval -> Prop) :
  P JUndefined -> P JNull -> (forall b, P (JBool b)) -> (forall z, P (JNum z)) ->
  (forall s, P (JStr s)) ->
  (forall elems, Forall P elems -> P (JArr elems)) ->
  (forall props, Forall (fun p => P (snd p)) props -> P (JObj props)) ->
  (forall name, P (JFunction name)) ->
  forall v, P v.
Proof.
  intros HU HN HB HZ HS HA HO HF.
  exact (fix rec (v : jsval) : P v :=
           match v with
           | JUndefined => HU
           | JNull => HN
           | JBool b => HB b
           | JNum z => HZ z
           | JStr s => HS s
           | JArr elems =>
               HA elems
                 ((fix each (l : list jsval) : Forall P l :=
                     match l with
                     | [] => Forall_nil P
                     | x :: r => Forall_cons x (rec x) (each r)
                     end) elems)
           | JObj props =>
               HO props
                 ((fix each (l : list (string * jsval)) : Forall (fun p => P (snd p)) l :=
                     match l with
                     | [] => Forall_nil _
                     | (k, x) :: r =>
                         @Forall_cons _ (fun p => P (snd p)) (k, x) r (rec x) (each r)
                     end) props)
           | JFunction name => HF name
           end).
Qed.

Lemma single_line_app a b : single_line (a ++ b) = single_line a && single_line b.
Proof. induction a as [|c a IH]; simpl; [reflexivity|]. now rewrite IH, andb_assoc. Qed.

Lemma quote_char_single_line c : single_line (quote_char c) = true.
Proof. destruct c as [[] [] [] [] [] [] [] []]; reflexivity. Qed.

Lemma quote_single_line s : single_line (quote s) = true.
Proof.
  assert (H : single_line (quote_body s) = true).
  { induction s as [|c s IH]; [reflexivity|].
    cbn [quote_body]. now rewrite single_line_app, quote_char_single_line, IH. }
  unfold quote. rewrite !single_line_app, H. reflexivity.
Qed.

Lemma uint_single_line d : single_line (NilEmpty.string_of_uint d) = true.
Proof. induction d; simpl; auto. Qed.

Lemma string_of_Z_single_line z : single_line (string_of_Z z) = true.
Proof.
  unfold string_of_Z, NilZero.string_of_int, NilZero.string_of_uint.
  destruct (Z.to_int z) as [d|d]; destruct d; simpl; auto using uint_single_line.
Qed.

Lemma join_single_line sep l :
  single_line sep = true -> Forall (fun s => single_line s = true) l ->
  single_line (join sep l) = true.
Proof.
  intros Hsep H. induction H as [|s l Hs Hl IH]; [reflexivity|].
  destruct l as [|t l]; [exact Hs|].
  cbn [join]. rewrite !single_line_app, Hs, Hsep. exact IH.
Qed.

Lemma serialize_single_line v : forall s, serialize v = Some s -> single_line s = true.
Proof.
  induction v using jsval_induction; cbn [serialize]; intros out Hout;
    try discriminate Hout.
  - injection Hout as <-. reflexivity.
  - destruct b; injection Hout as <-; reflexivity.
  - injection Hout as <-. apply string_of_Z_single_line.
  - injection Hout as <-. apply quote_single_line.
  - injection Hout as <-. cbn [single_line]. rewrite single_line_app.
    apply andb_true_iff. split; [reflexivity|].
    apply andb_true_iff. split; [|reflexivity].
    apply join_single_line; [reflexivity|].
    induction H as [|x l Hx Hl IH]; [constructor|].
    cbn [map]. constructor; [|exact IH].
    destruct (serialize x) as [t|]; [now apply Hx | reflexivity].
  - injection Hout as <-. cbn [single_line]. rewrite single_line_app.
    apply andb_true_iff. split; [reflexivity|].
    apply andb_true_iff. split; [|reflexivity].
    apply join_single_line; [reflexivity|].
    induction H as [|p l Hp Hl IH]; [constructor|].
    cbn [flat_map]. destruct (serialize (snd p)) as [t|] eqn:E; [|exact IH].
    cbn [app]. constructor; [|exact IH].
    change (single_line (quote (fst p) ++ ":" ++ t) = true).
    rewrite single_line_app, quote_single_line. cbn [andb append single_line].
    apply andb_true_iff. split; [reflexivity|]. now apply Hp.
Qed.

Lemma JSON_stringify_single_line v : single_line (JSON_stringify v) = true.
Proof.
  unfold JSON_stringify. destruct (serialize v) as [s|] eqn:E; [|reflexivity].
  exact (serialize_single_line v s E).
Qed.

(** X19.  Whatever the model and the content, line breaks in the content
    included, the emulated stream is three chunks [data: <payload>]
    followed by a blank line, closed at once, and the two JSON payloads
    hold no line feed and no carriage return: the blank line that ends a
    frame is the only one in it, so each chunk is one server-sent event. *)
Theorem frames_hold_no_line_break
    (modelId : jsval) (content : string) (w : World) (st : State) :
  exists p1 p2 st',
    Part000.emulated_stream modelId content w st =
      (Ok (BodyStream [ "data: " ++ p1 ++ LF ++ LF;
                        "data: " ++ p2 ++ LF ++ LF;
                        "data: [DONE]" ++ LF ++ LF ] true), st') /\
    single_line p1 = true /\ single_line p2 = true.
Proof.
  unfold Part000.emulated_stream. monad.
  eexists _, _, _. split; [reflexivity|].
  split; apply JSON_stringify_single_line.
Qed.

(* ================================================================== *)
(** * Where the CORS header is set *)
(* ================================================================== *)

(** X20.  In [main.ts] and [part_001] an answer carries
    [Access-Control-Allow-Origin] only if it is the preflight answer or a
    200: no 400, 401, 404, upstream-status or 500 answer of these two
    scripts has the header. *)
Theorem cors_header_only_on_success (env : Env) (w : World) (req : Request) :
  cors_only_on_success (fst (Main.handler env req w start)) /\
  cors_only_on_success (fst (Part001.handler env req w start)).
Proof.
  unfold cors_only_on_success. split.
  - open_handlers. walk idtac.
    all: try exact I.
    all: cbn [header headers status own_property String.eqb Ascii.eqb Bool.eqb];
      let C := fresh in intro C; first [ now left | now right | now elim C ].
  - open_handlers. walk idtac.
    all: try exact I.
    all: cbn [header headers status own_property String.eqb Ascii.eqb Bool.eqb];
      let C := fresh in intro C; first [ now left | now right | now elim C ].
Qed.
